(** * MCP debug servers: dispatch, HTTP proxy tool and session lifecycle

    A shallow embedding of the two server scripts of the repository,
    [mcpserver.py] and [TestHttpToolsMcpServer.py], and the properties of
    their tool dispatch, of the [fetch_api_data] handler and of the shared
    [aiohttp] session.

    Layout:
    - [Py]: the fragment of Python the handlers run on (JSON-shaped values,
      insertion-ordered dicts, truthiness, [in], item assignment,
      exceptions);
    - [Runtime]: what the scripts obtain from libraries and from the outside
      world ([str.upper], [json.dumps], the clock, the remote HTTP peer);
    - [mcp_types]: [Tool], [Resource], [TextContent];
    - [mcpserver] and [TestHttpToolsMcpServer]: one module per script. *)

From Stdlib Require Import ZArith String Ascii List Bool Lia.
From Stdlib Require Import Floats.SpecFloat.
From stdpp Require Import base list strings pretty.
Import ListNotations.
Local Open Scope string_scope.
Set Warnings "-register-all".

(** ** Python values and exceptions *)

Module Py.

(** Values a JSON-decoded argument mapping can hold.  Strings are byte
    strings (the UTF-8 encoding of the Python [str]); a [dict] keeps its
    insertion order, which is the order [json.dumps] prints. *)
Inductive pyval : Type :=
| PNone
| PBool (b : bool)
| PInt (z : Z)
| PFloat (f : spec_float)
| PStr (s : string)
| PList (l : list pyval)
| PDict (d : list (string * pyval)).

Definition dict : Type := list (string * pyval).

(** [d.get(k)] as an option; the first binding of [k] is the binding. *)
Fixpoint dict_lookup (d : dict) (k : string) : option pyval :=
  match d with
  | [] => None
  | (k', v) :: rest => if String.eqb k' k then Some v else dict_lookup rest k
  end.

(** [d.get(k, dflt)]. *)
Definition dict_get (d : dict) (k : string) (dflt : pyval) : pyval :=
  match dict_lookup d k with
  | Some v => v
  | None => dflt
  end.

(** [k in d] for a dict [d]. *)
Definition dict_contains (d : dict) (k : string) : bool :=
  match dict_lookup d k with
  | Some _ => true
  | None => false
  end.

(** [d[k] = v]: an existing key keeps its position, a new key goes last. *)
Fixpoint dict_setitem (d : dict) (k : string) (v : pyval) : dict :=
  match d with
  | [] => [(k, v)]
  | (k', v') :: rest =>
      if String.eqb k' k then (k', v) :: rest
      else (k', v') :: dict_setitem rest k v
  end.

(** [bool(v)]. *)
Definition truthy (v : pyval) : bool :=
  match v with
  | PNone => false
  | PBool b => b
  | PInt z => negb (z =? 0)%Z
  | PFloat (S754_zero _) => false
  | PFloat _ => true
  | PStr s => negb (String.eqb s EmptyString)
  | PList [] => false
  | PList (_ :: _) => true
  | PDict [] => false
  | PDict (_ :: _) => true
  end.

(** [type(v).__name__]. *)
Definition type_name (v : pyval) : string :=
  match v with
  | PNone => "NoneType"
  | PBool _ => "bool"
  | PInt _ => "int"
  | PFloat _ => "float"
  | PStr _ => "str"
  | PList _ => "list"
  | PDict _ => "dict"
  end.

(** [needle in hay] for two strings. *)
Fixpoint str_contains (hay needle : string) : bool :=
  String.prefix needle hay ||
  match hay with
  | EmptyString => false
  | String _ hay' => str_contains hay' needle
  end.

(** [v == k] for a string [k]. *)
Definition eq_str (v : pyval) (k : string) : bool :=
  match v with
  | PStr s => String.eqb s k
  | _ => false
  end.

(** Exception classes the handlers can meet.  All of them derive from
    [Exception]; [ClientError] stands for [aiohttp.ClientError] and its
    subclasses, [OtherException] for any [Exception] that is none of the
    others.  Signals below [BaseException] only (task cancellation,
    interpreter exit) are outside the model. *)
Inductive exn_class : Type :=
| ValueError
| AttributeError
| TypeError
| ClientError
| OtherException.

(** An exception object; [exn_str e] is [str(e)]. *)
Record exn : Type := Exn { exn_cls : exn_class; exn_str : string }.

(** [isinstance(e, aiohttp.ClientError)]. *)
Definition is_client_error (e : exn) : bool :=
  match exn_cls e with
  | ClientError => true
  | _ => false
  end.

(** What running a piece of Python gives: a value, or a raised exception. *)
Inductive outcome (A : Type) : Type :=
| Return (a : A)
| Raise (e : exn).
Arguments Return {A} a.
Arguments Raise {A} e.

(** [k in c] for a string [k] (CPython's wording of the [TypeError]). *)
Definition py_contains (c : pyval) (k : string) : outcome bool :=
  match c with
  | PDict d => Return (dict_contains d k)
  | PList l => Return (existsb (fun v => eq_str v k) l)
  | PStr s => Return (str_contains s k)
  | _ => Raise (Exn TypeError
                  ("argument of type '" +:+ type_name c +:+ "' is not iterable"))
  end.

(** [c[k] = v] for a string [k]; the value of [c] afterwards. *)
Definition py_setitem (c : pyval) (k : string) (v : pyval) : outcome pyval :=
  match c with
  | PDict d => Return (PDict (dict_setitem d k v))
  | PList _ => Raise (Exn TypeError "list indices must be integers or slices, not str")
  | _ => Raise (Exn TypeError
                  ("'" +:+ type_name c +:+ "' object does not support item assignment"))
  end.

End Py.
Export Py.

(** ** Library and environment boundary *)

(** One call [session.request(method, url=..., headers=..., ssl=..., data=...)]
    as the handler issues it; [req_data = None] when no [data] keyword is
    passed. *)
Record request : Type := Request {
  req_session : nat;
  req_method : string;
  req_url : pyval;
  req_headers : pyval;
  req_ssl : bool;
  req_data : option pyval
}.

(** A response object: [status], [dict(response.headers)], the outcome of
    [await response.text()] and [str(response.url)]. *)
Record response : Type := Response {
  resp_status : Z;
  resp_headers : list (string * string);
  resp_text : outcome string;
  resp_url : string
}.

(** What [session.request] does with a request: hands back a response, or
    raises. *)
Inductive net_outcome : Type :=
| NetResponse (r : response)
| NetError (e : exn).

(** Everything the scripts take from libraries and the outside world.
    - [str_upper] is [str.upper];
    - [json_dumps v] is [json.dumps(v, indent=2)];
    - [py_format v] is the text an f-string prints for a value that is not a
      [str];
    - [utcnow_isoformat] is [datetime.utcnow().isoformat()] at the time of
      the call (each handler reads the clock at most once);
    - [http] is the remote peer as seen through [aiohttp]. *)
Record Runtime : Type := {
  str_upper : string -> string;
  json_dumps : pyval -> string;
  py_format : pyval -> string;
  utcnow_isoformat : string;
  http : request -> net_outcome
}.

(** ** [mcp.types] *)

Module mcp_types.

Record TextContent : Type := { type : string; text : string }.

Module Tool.
Record t : Type := { name : string; description : string; inputSchema : pyval }.
End Tool.

Module Resource.
Record t : Type :=
  { uri : string; name : string; description : string; mimeType : string }.
End Resource.

End mcp_types.
Export mcp_types.

(** [v.upper()]: only a [str] has the method. *)
Definition py_upper (R : Runtime) (v : pyval) : outcome string :=
  match v with
  | PStr s => Return (str_upper R s)
  | _ => Raise (Exn AttributeError
                  ("'" +:+ type_name v +:+ "' object has no attribute 'upper'"))
  end.

(** An f-string field [{v}]: a [str] prints as itself. *)
Definition fstr (R : Runtime) (v : pyval) : string :=
  match v with
  | PStr s => s
  | _ => py_format R v
  end.

(** ** [mcpserver.py] *)

Module mcpserver.

Definition handle_list_tools : list Tool.t :=
  [ {| Tool.name := "echo";
       Tool.description := "Echo back the input with timestamp and debug info";
       Tool.inputSchema :=
         PDict [("type", PStr "object");
                ("properties",
                 PDict [("message",
                         PDict [("type", PStr "string");
                                ("description", PStr "Message to echo back")])]);
                ("required", PList [PStr "message"])] |};
    {| Tool.name := "debug_info";
       Tool.description := "Get server debug information";
       Tool.inputSchema :=
         PDict [("type", PStr "object");
                ("properties", PDict []);
                ("additionalProperties", PBool false)] |} ].

(** The dict built in the [debug_info] branch. *)
Definition debug_data (R : Runtime) : pyval :=
  PDict [("server_name", PStr "debug-mcp-server");
         ("timestamp", PStr (utcnow_isoformat R));
         ("tools_available", PList [PStr "echo"; PStr "debug_info"]);
         ("resources_available", PList [PStr "config://settings"]);
         ("status", PStr "running")].

Definition handle_call_tool (R : Runtime) (name : string) (arguments : dict)
  : outcome (list TextContent) :=
  if String.eqb name "echo" then
    let message := dict_get arguments "message" (PStr EmptyString) in
    let timestamp := utcnow_isoformat R in
    let response := "Echo at " +:+ timestamp +:+ ": " +:+ fstr R message in
    Return [ {| type := "text"; text := response |} ]
  else if String.eqb name "debug_info" then
    Return [ {| type := "text"; text := json_dumps R (debug_data R) |} ]
  else
    Raise (Exn ValueError ("Unknown tool: " +:+ name)).

Definition handle_list_resources : list Resource.t :=
  [ {| Resource.uri := "config://settings";
       Resource.name := "Application Settings";
       Resource.description := "Current application configuration";
       Resource.mimeType := "application/json" |};
    {| Resource.uri := "debug://logs";
       Resource.name := "Debug Logs";
       Resource.description := "Recent server logs";
       Resource.mimeType := "text/plain" |} ].

(** The dict built in the [config://settings] branch. *)
Definition config (R : Runtime) : pyval :=
  PDict [("version", PStr "1.0");
         ("debug", PBool true);
         ("last_updated", PStr (utcnow_isoformat R))].

(** The line feed of the [debug://logs] text. *)
Definition LF : string := String (ascii_of_nat 10) EmptyString.

Definition handle_read_resource (R : Runtime) (uri : string) : outcome string :=
  if String.eqb uri "config://settings" then
    Return (json_dumps R (config R))
  else if String.eqb uri "debug://logs" then
    Return ("Debug logs as of " +:+ utcnow_isoformat R +:+ LF
            +:+ "Server is running normally.")
  else
    Raise (Exn ValueError ("Unknown resource: " +:+ uri)).

End mcpserver.

(** ** [TestHttpToolsMcpServer.py] *)

Module TestHttpToolsMcpServer.

(** The mutable world of the script: the module global [http_session] (a
    reference into the store of [ClientSession] objects, or [None]), the
    store itself (one [closed] flag per object, addressed by allocation
    order), and the log of calls made to [session.request]. *)
Record state : Type := State {
  http_session : option nat;
  sessions : list bool;
  requests : list request
}.

Definition initial_state : state :=
  {| http_session := None; sessions := []; requests := [] |}.

(** [s.closed] for the object at address [i].  The global only ever holds
    an address of the store; an address outside it reads as closed. *)
Definition session_closed (st : state) (i : nat) : bool :=
  match sessions st !! i with
  | Some c => c
  | None => true
  end.

(** Code that reads and writes the world and may raise. *)
Definition M (A : Type) : Type := state -> outcome A * state.

Definition ret {A : Type} (a : A) : M A := fun st => (Return a, st).

Definition lift {A : Type} (o : outcome A) : M A := fun st => (o, st).

Definition bind {A B : Type} (m : M A) (k : A -> M B) : M B :=
  fun st =>
    match m st with
    | (Return a, st') => k a st'
    | (Raise e, st') => (Raise e, st')
    end.

(** [try: body except Exception as e: handler(e)]; every exception of the
    model is an [Exception]. *)
Definition try_except {A : Type} (body : M A) (handler : exn -> M A) : M A :=
  fun st =>
    match body st with
    | (Return a, st') => (Return a, st')
    | (Raise e, st') => handler e st'
    end.

Notation "x <- m ;; k" := (bind m (fun x => k))
  (at level 60, m at next level, right associativity).

Definition get_http_session : M nat :=
  fun st =>
    let fresh :=
      let i := length (sessions st) in
      (Return i, {| http_session := Some i;
                    sessions := sessions st ++ [false];
                    requests := requests st |}) in
    match http_session st with
    | None => fresh
    | Some i => if session_closed st i then fresh else (Return i, st)
    end.

(** [session.request(method, **kwargs)]: the call is logged and the peer
    answers. *)
Definition session_request (R : Runtime) (req : request) : M response :=
  fun st =>
    let st' := {| http_session := http_session st;
                  sessions := sessions st;
                  requests := requests st ++ [req] |} in
    match http R req with
    | NetResponse r => (Return r, st')
    | NetError e => (Raise e, st')
    end.

Definition text_block (s : string) : TextContent := {| type := "text"; text := s |}.

Definition handle_list_tools : list Tool.t :=
  [ {| Tool.name := "debug_info";
       Tool.description := "Get server debug information";
       Tool.inputSchema :=
         PDict [("type", PStr "object");
                ("properties", PDict []);
                ("additionalProperties", PBool false)] |};
    {| Tool.name := "fetch_api_data";
       Tool.description := "Fetch data from a REST API endpoint";
       Tool.inputSchema :=
         PDict [("type", PStr "object");
                ("properties",
                 PDict [("url",
                         PDict [("type", PStr "string");
                                ("description", PStr "API endpoint URL")]);
                        ("method",
                         PDict [("type", PStr "string");
                                ("enum", PList [PStr "GET"; PStr "POST";
                                                PStr "PUT"; PStr "DELETE"]);
                                ("default", PStr "GET");
                                ("description", PStr "Http Method")]);
                        ("headers",
                         PDict [("type", PStr "object");
                                ("description", PStr "Optional HTTP headers");
                                ("additionalProperties",
                                 PDict [("type", PStr "string")])]);
                        ("body",
                         PDict [("type", PStr "string");
                                ("description", PStr "Request body (for POST/PUT)")])]);
                ("required", PList [PStr "url"])] |};
    {| Tool.name := "weather_api";
       Tool.description := "Get weather information for a city";
       Tool.inputSchema :=
         PDict [("type", PStr "object");
                ("properties",
                 PDict [("city",
                         PDict [("type", PStr "string");
                                ("description", PStr "City name")])]);
                ("required", PList [PStr "city"])] |} ].

(** The dict built in the [debug_info] branch. *)
Definition debug_data (R : Runtime) : pyval :=
  PDict [("server_name", PStr "debug-mcp-server");
         ("timestamp", PStr (utcnow_isoformat R));
         ("tools_available",
          PList [PStr "debug_info"; PStr "fetch_api_data"; PStr "weather_api"]);
         ("resources_available", PList [PStr "config://settings"; PStr "debug://logs"]);
         ("status", PStr "running")].

(** The [result] dict of a completed request. *)
Definition api_result (r : response) (response_text method : string) : pyval :=
  PDict [("status_code", PInt (resp_status r));
         ("headers", PDict (map (fun kv => (fst kv, PStr (snd kv))) (resp_headers r)));
         ("body", PStr response_text);
         ("url", PStr (resp_url r));
         ("method", PStr method)].

(** The [error_result] dict of the two [except] clauses. *)
Definition api_error_result (category : string) (e : exn) (url : pyval)
    (method : string) : pyval :=
  PDict [("error", PStr category);
         ("message", PStr (exn_str e));
         ("url", url);
         ("method", PStr method)].

(** [kwargs] and the method travel together as one [request].  The dict
    bound to [headers] is the object stored under [kwargs["headers"]], so
    the item assignment is seen by the request. *)
Definition handle_api_call (R : Runtime) (arguments : dict) : M (list TextContent) :=
  let url := dict_get arguments "url" PNone in
  method <- lift (py_upper R (dict_get arguments "method" (PStr "GET"))) ;;
  let headers := dict_get arguments "headers" (PDict []) in
  let body := dict_get arguments "body" PNone in
  try_except
    (session <- get_http_session ;;
     kwargs <-
       (if truthy body && existsb (String.eqb method) ["POST"; "PUT"; "PATCH"] then
          present <- lift (py_contains headers "Content-Type") ;;
          headers' <-
            (if negb present
             then lift (py_setitem headers "Content-Type" (PStr "application/json"))
             else ret headers) ;;
          ret (Request session method url headers' false (Some body))
        else
          ret (Request session method url headers false None)) ;;
     response <- session_request R kwargs ;;
     response_text <- lift (resp_text response) ;;
     ret [text_block (json_dumps R (api_result response response_text method))])
    (fun e =>
       if is_client_error e then
         ret [text_block (json_dumps R (api_error_result "HTTP Client Error" e url method))]
       else
         ret [text_block (json_dumps R (api_error_result "Unexpected Error" e url method))]).

(** The [mock_weather_data] dict. *)
Definition mock_weather_data (city : pyval) : pyval :=
  PDict [("city", city);
         ("temperature", PStr "22Â°C");
         ("description", PStr "Partly cloudy");
         ("humidity", PStr "65%");
         ("wind_speed", PStr "10 km/h");
         ("note", PStr "This is mock data. Replace with real API key for actual data.")].

(** The locals [url] and [params] are built and never used. *)
Definition handle_weather_api (R : Runtime) (arguments : dict) : M (list TextContent) :=
  let city := dict_get arguments "city" PNone in
  try_except
    (session <- get_http_session ;;
     ret [text_block (json_dumps R (mock_weather_data city))])
    (fun e =>
       ret [text_block
              (json_dumps R (PDict [("error", PStr "Weather API Error");
                                    ("message", PStr (exn_str e));
                                    ("city", city)]))]).

(** What [handle_call_tool] hands back to the framework: content blocks, or
    (last branch) an exception object as a plain value. *)
Inductive retval : Type :=
| Content (blocks : list TextContent)
| ExcObject (e : exn).

Definition handle_call_tool (R : Runtime) (name : string) (arguments : dict) : M retval :=
  if String.eqb name "debug_info" then
    ret (Content [text_block (json_dumps R (debug_data R))])
  else if String.eqb name "fetch_api_data" then
    blocks <- handle_api_call R arguments ;; ret (Content blocks)
  else if String.eqb name "weather_api" then
    blocks <- handle_weather_api R arguments ;; ret (Content blocks)
  else
    ret (ExcObject (Exn ValueError ("Unknown tool:" +:+ name))).

(** [await http_session.close()] on the object at address [i]. *)
Definition close_session (i : nat) (st : state) : state :=
  {| http_session := http_session st;
     sessions := <[i := true]> (sessions st);
     requests := requests st |}.

(** The [finally] block of [main]; a session object is truthy. *)
Definition main_finally (st : state) : state :=
  match http_session st with
  | Some i => if negb (session_closed st i) then close_session i st else st
  | None => st
  end.

(** What can happen to the world while [server.run] is serving: a tool call
    arrives (with the runtime it meets), or some holder of a session object
    closes it. *)
Inductive event : Type :=
| CallTool (R : Runtime) (name : string) (arguments : dict)
| SessionClose (i : nat).

Definition step (ev : event) (st : state) : state :=
  match ev with
  | CallTool R name arguments => snd (handle_call_tool R name arguments st)
  | SessionClose i => close_session i st
  end.

(** The world after [server.run] has served [evs]. *)
Definition server_run (evs : list event) (st : state) : state :=
  fold_left (fun st ev => step ev st) evs st.

(** [main]: serve, then run the [finally] block. *)
Definition main (evs : list event) : state :=
  main_finally (server_run evs initial_state).

(** A session object that exists and is not closed. *)
Definition live (st : state) (i : nat) : Prop := sessions st !! i = Some false.

End TestHttpToolsMcpServer.

(** ** Vocabulary of the statements *)

Import TestHttpToolsMcpServer.

(** The method a [fetch_api_data] call works with: the [method] argument
    (default ["GET"]) upper-cased; raises when the argument is not a [str]. *)
Definition method_of (R : Runtime) (arguments : dict) : outcome string :=
  py_upper R (dict_get arguments "method" (PStr "GET")).

(** The calls to [session.request] made by one run of a handler: what the
    run appended to the log. *)
Definition issued {A : Type} (m : M A) (st : state) : list request :=
  drop (length (requests st)) (requests (snd (m st))).

(** The [tools_available] entry of a [debug_data] dict. *)
Definition tools_available (v : pyval) : option (list pyval) :=
  match v with
  | PDict d =>
      match dict_lookup d "tools_available" with
      | Some (PList l) => Some l
      | _ => None
      end
  | _ => None
  end.




(** The session a call to [get_http_session] returns in world [st], and the
    world it leaves. *)
Definition session_of (st : state) : nat :=
  match fst (get_http_session st) with
  | Return i => i
  | Raise _ => 0
  end.

Definition after_acquire (st : state) : state := snd (get_http_session st).

(** The world with one more logged request. *)
Definition logged (req : request) (st : state) : state :=
  {| http_session := http_session st;
     sessions := sessions st;
     requests := requests st ++ [req] |}.

(** The request lines 122 to 131 of the script prepare, as a function of the
    session, the upper-cased method and the arguments; raises when the
    [Content-Type] test or the item assignment does. *)
Definition prepared (session : nat) (method : string) (arguments : dict)
  : outcome request :=
  let url := dict_get arguments "url" PNone in
  let headers := dict_get arguments "headers" (PDict []) in
  let body := dict_get arguments "body" PNone in
  if truthy body && existsb (String.eqb method) ["POST"; "PUT"; "PATCH"] then
    match py_contains headers "Content-Type" with
    | Raise e => Raise e
    | Return true => Return (Request session method url headers false (Some body))
    | Return false =>
        match py_setitem headers "Content-Type" (PStr "application/json") with
        | Raise e => Raise e
        | Return headers' =>
            Return (Request session method url headers' false (Some body))
        end
    end
  else Return (Request session method url headers false None).

(** The blocks the two [except] clauses of [handle_api_call] return. *)
Definition error_blocks (R : Runtime) (e : exn) (url : pyval) (method : string)
  : list TextContent :=
  [ text_block
      (json_dumps R
         (api_error_result
            (if is_client_error e then "HTTP Client Error" else "Unexpected Error")
            e url method)) ].

(** The headers a request carries when [Content-Type: application/json] is
    the default over the caller's mapping [h]: added last when [h] has no
    [Content-Type] key, [h] itself otherwise. *)
Definition with_default_content_type (h : dict) : pyval :=
  PDict (if dict_contains h "Content-Type" then h
         else h ++ [("Content-Type", PStr "application/json")]).

(** The call issues one request, with [body] as its payload and the
    [Content-Type] default applied to the caller's headers [h]. *)
Definition sends_body (R : Runtime) (arguments : dict) (st : state)
    (body : pyval) (h : dict) : Prop :=
  exists req : request,
    issued (handle_api_call R arguments) st = [req]
    /\ req_data req = Some body
    /\ req_headers req = with_default_content_type h.

(** ** A runtime to run examples on *)

Definition upper_ascii (c : ascii) : ascii :=
  let n := nat_of_ascii c in
  if (97 <=? n)%nat && (n <=? 122)%nat then ascii_of_nat (n - 32) else c.

Fixpoint upper_string (s : string) : string :=
  match s with
  | EmptyString => EmptyString
  | String c s' => String (upper_ascii c) (upper_string s')
  end.

Definition dquote : string := String (ascii_of_nat 34) EmptyString.

(** A one-line printer standing in for [json.dumps] in examples (no
    escaping, floats not printed). *)
Fixpoint show (v : pyval) : string :=
  match v with
  | PNone => "null"
  | PBool true => "true"
  | PBool false => "false"
  | PInt z => pretty z
  | PFloat _ => "<float>"
  | PStr s => dquote +:+ s +:+ dquote
  | PList l =>
      "[" +:+ (fix items (l : list pyval) : string :=
                 match l with
                 | [] => EmptyString
                 | [x] => show x
                 | x :: l' => show x +:+ ", " +:+ items l'
                 end) l +:+ "]"
  | PDict d =>
      "{" +:+ (fix items (d : list (string * pyval)) : string :=
                 match d with
                 | [] => EmptyString
                 | [(k, x)] => dquote +:+ k +:+ dquote +:+ ": " +:+ show x
                 | (k, x) :: d' => dquote +:+ k +:+ dquote +:+ ": " +:+ show x +:+ ", " +:+ items d'
                 end) d +:+ "}"
  end.

(** A peer that answers every request with the given status and echoes the
    request headers that are strings. *)
Definition echo_peer (status : Z) (req : request) : net_outcome :=
  NetResponse
    {| resp_status := status;
       resp_headers :=
         match req_headers req with
         | PDict d =>
             flat_map (fun kv => match snd kv with
                                 | PStr s => [(fst kv, s)]
                                 | _ => []
                                 end) d
         | _ => []
         end;
       resp_text := Return "{}";
       resp_url := match req_url req with PStr u => u | _ => EmptyString end |}.

(** A peer no connection reaches. *)
Definition unreachable_peer (req : request) : net_outcome :=
  NetError (Exn ClientError "Cannot connect to host").

Definition sample_runtime (peer : request -> net_outcome) : Runtime :=
  {| str_upper := upper_string;
     json_dumps := show;
     py_format := show;
     utcnow_isoformat := "2024-01-01T00:00:00";
     http := peer |}.

(** Every session object that is open is the one [http_session] refers to. *)
Definition only_current_live (st : state) : Prop :=
  forall i : nat, live st i -> http_session st = Some i.

(** Two worlds with the same session global and the same session objects. *)
Definition same_sessions (a b : state) : Prop :=
  http_session a = http_session b /\ sessions a = sessions b.

(** Example argument mappings. *)
Definition get_example : dict := [("url", PStr "http://localhost/status")].

Definition post_example : dict :=
  [("url", PStr "http://localhost/echo"); ("method", PStr "POST"); ("body", PStr "{}")].

Definition post_empty_body_example : dict :=
  [("url", PStr "http://localhost/echo"); ("method", PStr "POST");
   ("body", PStr EmptyString)].


Definition numeric_method_example : dict :=
  [("url", PStr "http://example.com"); ("method", PInt 5)].

Definition lifecycle_example : list event :=
  [ CallTool (sample_runtime (echo_peer 200)) "weather_api" [("city", PStr "Paris")];
    SessionClose 0;
    CallTool (sample_runtime (echo_peer 200)) "fetch_api_data" get_example;
    CallTool (sample_runtime unreachable_peer) "fetch_api_data" post_example ].

(** The [resources_available] entry of a [debug_data] dict. *)
Definition resources_available (v : pyval) : option (list pyval) :=
  match v with
  | PDict d =>
      match dict_lookup d "resources_available" with
      | Some (PList l) => Some l
      | _ => None
      end
  | _ => None
  end.

(** [isinstance(v, str)]. *)
Definition is_str (v : pyval) : bool :=
  match v with
  | PStr _ => true
  | _ => false
  end.

(** Values [in] cannot search: neither a dict, a list nor a string. *)
Definition is_scalar (v : pyval) : bool :=
  match v with
  | PDict _ | PList _ | PStr _ => false
  | _ => true
  end.

(** The global refers to a session object that is open. *)
Definition has_open_current (st : state) : bool :=
  match http_session st with
  | Some i => negb (session_closed st i)
  | None => false
  end.

(** The closings among the events of a run. *)
Definition is_close (ev : event) : bool :=
  match ev with
  | SessionClose _ => true
  | CallTool _ _ _ => false
  end.

Definition closings (evs : list event) : nat := length (filter is_close evs).

(** The [fetch_api_data] calls among the events of a run. *)
Definition is_fetch (ev : event) : bool :=
  match ev with
  | CallTool _ name _ => String.eqb name "fetch_api_data"
  | SessionClose _ => false
  end.

Definition fetch_calls (evs : list event) : nat := length (filter is_fetch evs).

(** More example argument mappings. *)
Definition get_with_body_example : dict :=
  [("url", PStr "http://localhost/status"); ("body", PStr "{}")].

Definition post_null_headers_example : dict :=
  [("url", PStr "http://localhost/echo"); ("method", PStr "POST");
   ("headers", PNone); ("body", PStr "{}")].

Definition post_with_headers_example : dict :=
  [("url", PStr "http://localhost/echo"); ("method", PStr "put");
   ("headers", PDict [("content-type", PStr "text/plain"); ("X-Trace", PStr "1")]);
   ("body", PStr "hello")].

(** A peer that answers 200 with a body that cannot be decoded as text:
    [await response.text()] raises [UnicodeDecodeError], a [ValueError]. *)
Definition undecodable_peer (req : request) : net_outcome :=
  NetResponse
    {| resp_status := 200;
       resp_headers := [("Content-Type", "application/octet-stream")];
       resp_text :=
         Raise (Exn ValueError
                  "'utf-8' codec can't decode byte 0xff in position 0: invalid start byte");
       resp_url := match req_url req with PStr u => u | _ => EmptyString end |}.

(** The blocks are the result of a completed request with response [r]. *)
Definition reports_response (R : Runtime) (r : response) (blocks : list TextContent)
  : Prop :=
  exists (body mu : string), blocks = [text_block (json_dumps R (api_result r body mu))].

Definition binary_example : dict := [("url", PStr "http://localhost/blob")].



(** ** Dispatch on tool and resource names *)

Section Dispatch.

Variable R : Runtime.

(** The dispatcher of [mcpserver.py] raises on a name it does not know. *)
Lemma mcpserver_unknown_tool_raises (name : string) (arguments : dict) :
  name <> "echo" -> name <> "debug_info" ->
  mcpserver.handle_call_tool R name arguments
  = Raise (Exn ValueError ("Unknown tool: " +:+ name)).
Proof.
  intros Hecho Hdebug. unfold mcpserver.handle_call_tool.
  apply String.eqb_neq in Hecho, Hdebug. now rewrite Hecho, Hdebug.
Qed.

(** The dispatcher of [TestHttpToolsMcpServer.py] never raises on a name it
    does not know: the [ValueError] comes back as the returned value and the
    world is untouched. *)
Lemma httptools_unknown_tool_returns (name : string) (arguments : dict) (st : state) :
  name <> "debug_info" -> name <> "fetch_api_data" -> name <> "weather_api" ->
  handle_call_tool R name arguments st
  = (Return (ExcObject (Exn ValueError ("Unknown tool:" +:+ name))), st).
Proof.
  intros H1 H2 H3. unfold handle_call_tool.
  apply String.eqb_neq in H1, H2, H3. now rewrite H1, H2, H3.
Qed.

(** C1 (the code at the failing input).  In [TestHttpToolsMcpServer.py],
    [handle_call_tool("nonexistent_tool", {})] does not raise: it returns the
    [ValueError] object as its result, in every world. *)
Theorem unknown_tool_returned_as_value (st : state) :
  handle_call_tool R "nonexistent_tool" [] st
  = (Return (ExcObject (Exn ValueError "Unknown tool:nonexistent_tool")), st).
Proof. reflexivity. Qed.

(** C6.  [read_resource] matches the URI exactly: ["config://settings"] gives
    the JSON text of a document with a schema version, a debug flag and a
    generation timestamp; ["debug://logs"] gives a plain-text status line
    with a timestamp; every other URI raises the unknown-resource error. *)
Theorem read_resource_exact_match :
  mcpserver.handle_read_resource R "config://settings"
  = Return (json_dumps R (PDict [("version", PStr "1.0");
                                 ("debug", PBool true);
                                 ("last_updated", PStr (utcnow_isoformat R))]))
  /\ mcpserver.handle_read_resource R "debug://logs"
     = Return ("Debug logs as of " +:+ utcnow_isoformat R +:+ mcpserver.LF
               +:+ "Server is running normally.")
  /\ (forall uri : string,
        uri <> "config://settings" -> uri <> "debug://logs" ->
        mcpserver.handle_read_resource R uri
        = Raise (Exn ValueError ("Unknown resource: " +:+ uri))).
Proof.
  split; [reflexivity | split; [reflexivity |]].
  intros uri Hsettings Hlogs. unfold mcpserver.handle_read_resource.
  apply String.eqb_neq in Hsettings, Hlogs. now rewrite Hsettings, Hlogs.
Qed.

(** C7.  In both scripts and in every world, [call_tool("debug_info", _)]
    returns one text block, the JSON text of an object whose
    [tools_available] list holds exactly the names of the enumerated
    tools. *)
Theorem debug_info_lists_enumerated_tools (arguments : dict) (st : state) :
  (exists (v : pyval) (names : list string),
      handle_call_tool R "debug_info" arguments st
      = (Return (Content [ {| type := "text"; text := json_dumps R v |} ]), st)
      /\ tools_available v = Some (map PStr names)
      /\ (forall n : string, In n names <-> In n (map Tool.name handle_list_tools)))
  /\ (exists (v : pyval) (names : list string),
        mcpserver.handle_call_tool R "debug_info" arguments
        = Return [ {| type := "text"; text := json_dumps R v |} ]
        /\ tools_available v = Some (map PStr names)
        /\ (forall n : string,
              In n names <-> In n (map Tool.name mcpserver.handle_list_tools))).
Proof.
  split.
  - exists (debug_data R), ["debug_info"; "fetch_api_data"; "weather_api"].
    repeat split; auto.
  - exists (mcpserver.debug_data R), ["echo"; "debug_info"].
    repeat split; auto.
Qed.

End Dispatch.

(** ** The shared session *)

Section Session.

Lemma get_http_session_returns (st : state) :
  get_http_session st = (Return (session_of st), after_acquire st).
Proof.
  unfold session_of, after_acquire, get_http_session.
  destruct (http_session st) as [i|]; [destruct (session_closed st i)|]; reflexivity.
Qed.

(** Acquisition reuses the current session when there is one and it is open,
    and allocates a fresh open one otherwise. *)
Lemma get_http_session_cases (st : state) :
  (exists i, http_session st = Some i /\ session_closed st i = false
             /\ session_of st = i /\ after_acquire st = st)
  \/ ((http_session st = None
       \/ exists i, http_session st = Some i /\ session_closed st i = true)
      /\ session_of st = length (sessions st)
      /\ after_acquire st = {| http_session := Some (length (sessions st));
                               sessions := sessions st ++ [false];
                               requests := requests st |}).
Proof.
  unfold session_of, after_acquire, get_http_session.
  destruct (http_session st) as [i|] eqn:Hs.
  - destruct (session_closed st i) eqn:Hc.
    + right. split; [right; exists i; auto | auto].
    + left. exists i. auto.
  - right. auto.
Qed.

Lemma after_acquire_requests (st : state) :
  requests (after_acquire st) = requests st.
Proof.
  destruct (get_http_session_cases st) as [(i & _ & _ & _ & ->) | (_ & _ & ->)];
    reflexivity.
Qed.

End Session.

(** ** The [fetch_api_data] handler *)

Section Fetch.

Variable R : Runtime.

(** The handler unrolled: once the method is a string, the run acquires the
    session, prepares the request, issues it, and turns every outcome into
    blocks. *)
Lemma handle_api_call_unrolled (arguments : dict) (st : state) (mu : string) :
  method_of R arguments = Return mu ->
  handle_api_call R arguments st
  = let url := dict_get arguments "url" PNone in
    match prepared (session_of st) mu arguments with
    | Raise e => (Return (error_blocks R e url mu), after_acquire st)
    | Return req =>
        let st' := logged req (after_acquire st) in
        match http R req with
        | NetError e => (Return (error_blocks R e url mu), st')
        | NetResponse r =>
            match resp_text r with
            | Raise e => (Return (error_blocks R e url mu), st')
            | Return body =>
                (Return [text_block (json_dumps R (api_result r body mu))], st')
            end
        end
    end.
Proof.
  intros Hm. unfold method_of in Hm.
  unfold handle_api_call, bind, try_except, lift. rewrite Hm.
  rewrite get_http_session_returns. unfold prepared, error_blocks, ret.
  destruct (truthy (dict_get arguments "body" PNone)
            && existsb (String.eqb mu) ["POST"; "PUT"; "PATCH"]).
  - destruct (py_contains (dict_get arguments "headers" (PDict [])) "Content-Type")
      as [[|]|e]; cbn [negb].
    + unfold session_request, logged.
      destruct (http R _) as [r|e]; [destruct (resp_text r) as [t|e]|];
        try destruct (is_client_error e); reflexivity.
    + destruct (py_setitem _ _ _) as [h'|e].
      * unfold session_request, logged.
        destruct (http R _) as [r|e]; [destruct (resp_text r) as [t|e]|];
          try destruct (is_client_error e); reflexivity.
      * destruct (is_client_error e); reflexivity.
    + destruct (is_client_error e); reflexivity.
  - unfold session_request, logged.
    destruct (http R _) as [r|e]; [destruct (resp_text r) as [t|e]|];
      try destruct (is_client_error e); reflexivity.
Qed.

(** A method that is not a string stops the handler before its [try]. *)
Lemma handle_api_call_method_raises (arguments : dict) (st : state) (e : exn) :
  method_of R arguments = Raise e ->
  handle_api_call R arguments st = (Raise e, st).
Proof.
  intros Hm. unfold method_of in Hm.
  unfold handle_api_call, bind, lift. now rewrite Hm.
Qed.

(** The requests a run issues: the prepared one, if preparing it succeeds. *)
Lemma issued_handle_api_call (arguments : dict) (st : state) (mu : string) :
  method_of R arguments = Return mu ->
  issued (handle_api_call R arguments) st
  = match prepared (session_of st) mu arguments with
    | Return req => [req]
    | Raise _ => []
    end.
Proof.
  intros Hm. unfold issued. rewrite (handle_api_call_unrolled _ _ _ Hm). cbv zeta.
  destruct (prepared _ _ _) as [req|e].
  - assert (Hlog : requests (logged req (after_acquire st)) = (requests st ++ [req])%list)
      by (unfold logged; cbn; now rewrite after_acquire_requests).
    destruct (http R req) as [r|e]; [destruct (resp_text r) as [t|e]|];
      cbn [snd]; rewrite Hlog; apply drop_app_length.
  - cbn [snd]. rewrite after_acquire_requests. apply drop_all.
Qed.

Lemma dict_setitem_fresh (d : dict) (k : string) (v : pyval) :
  dict_contains d k = false -> dict_setitem d k v = (d ++ [(k, v)])%list.
Proof.
  unfold dict_contains. induction d as [|[k' v'] d IH]; cbn; [reflexivity|].
  destruct (String.eqb k' k); [discriminate|].
  intros H. now rewrite IH.
Qed.

(** With a mapping for headers and a truthy body under POST, PUT or PATCH,
    the prepared request carries the body and the defaulted headers. *)
Lemma prepared_with_body (i : nat) (mu : string) (arguments : dict)
    (body : pyval) (h : dict) :
  dict_lookup arguments "body" = Some body ->
  truthy body = true ->
  existsb (String.eqb mu) ["POST"; "PUT"; "PATCH"] = true ->
  dict_get arguments "headers" (PDict []) = PDict h ->
  prepared i mu arguments
  = Return (Request i mu (dict_get arguments "url" PNone)
              (with_default_content_type h) false (Some body)).
Proof.
  intros Hb Ht Hm Hh.
  assert (Hbody : dict_get arguments "body" PNone = body)
    by (unfold dict_get; now rewrite Hb).
  unfold prepared, with_default_content_type.
  rewrite Hbody, Ht, Hm, Hh. cbn [andb py_contains].
  destruct (dict_contains h "Content-Type") eqn:Hc; [reflexivity|].
  cbn [py_setitem]. now rewrite (dict_setitem_fresh _ _ _ Hc).
Qed.

(** Without a truthy body nothing is attached and the headers go out as the
    caller gave them. *)
Lemma prepared_without_body (i : nat) (mu : string) (arguments : dict) :
  truthy (dict_get arguments "body" PNone) = false ->
  prepared i mu arguments
  = Return (Request i mu (dict_get arguments "url" PNone)
              (dict_get arguments "headers" (PDict [])) false None).
Proof. intros Ht. unfold prepared. now rewrite Ht. Qed.

Lemma prepared_method (i : nat) (mu : string) (arguments : dict) (req : request) :
  prepared i mu arguments = Return req -> req_method req = mu.
Proof.
  unfold prepared.
  destruct (truthy _ && _).
  - destruct (py_contains _ _) as [[|]|e]; [| |discriminate].
    + intros [= <-]. reflexivity.
    + destruct (py_setitem _ _ _) as [h'|e]; [|discriminate].
      intros [= <-]. reflexivity.
  - intros [= <-]. reflexivity.
Qed.

(** With a string (or no) method the handler always returns one text block:
    the result of the completed request, or an error report with category,
    message, url and method. *)
Lemma handle_api_call_contained (arguments : dict) (st : state) (mu : string) :
  method_of R arguments = Return mu ->
  exists (v : pyval) (st' : state),
    handle_api_call R arguments st = (Return [text_block (json_dumps R v)], st')
    /\ ((exists r body, v = api_result r body mu)
        \/ (exists e,
              v = PDict [("error", PStr (if is_client_error e
                                         then "HTTP Client Error"
                                         else "Unexpected Error"));
                         ("message", PStr (exn_str e));
                         ("url", dict_get arguments "url" PNone);
                         ("method", PStr mu)])).
Proof.
  intros Hm. rewrite (handle_api_call_unrolled _ _ _ Hm). cbv zeta.
  unfold error_blocks, api_error_result.
  destruct (prepared _ _ _) as [req|e]; [|eauto 8].
  destruct (http R req) as [r|e]; [|eauto 8].
  destruct (resp_text r) as [t|e]; eauto 8.
Qed.

(** C2 (the code at the failing input).  With a [method] argument that is
    not a string, here the number 5, the call raises [AttributeError] out of
    the handler and out of the dispatcher: the upper-casing runs before the
    [try]. *)
Theorem fetch_non_string_method_escapes (st : state) :
  handle_call_tool R "fetch_api_data" numeric_method_example st
  = (Raise (Exn AttributeError "'int' object has no attribute 'upper'"), st).
Proof. reflexivity. Qed.

(** C3, amended.  When the body argument is present and truthy (for a
    string: not empty) and the upper-cased method is POST or PUT, the call
    issues one request that carries the body as its payload, and whose
    headers are the caller's mapping with [Content-Type: application/json]
    added exactly when the mapping has no [Content-Type] key. *)
Theorem truthy_body_sent_with_default_content_type
    (arguments : dict) (st : state) (mu : string) (body : pyval) (h : dict) :
  method_of R arguments = Return mu ->
  mu = "POST" \/ mu = "PUT" ->
  dict_lookup arguments "body" = Some body ->
  truthy body = true ->
  dict_get arguments "headers" (PDict []) = PDict h ->
  sends_body R arguments st body h.
Proof.
  intros Hm Hmu Hb Ht Hh. unfold sends_body.
  rewrite (issued_handle_api_call _ _ _ Hm).
  assert (He : existsb (String.eqb mu) ["POST"; "PUT"; "PATCH"] = true)
    by (destruct Hmu as [-> | ->]; reflexivity).
  rewrite (prepared_with_body _ _ _ _ _ Hb Ht He Hh). eauto.
Qed.

(** C4, amended.  When the request a call issued came back with a response
    and the text of that response was read, whatever the status code, the
    handler returns one text block:
    the JSON text of an object with the status code as a number, the
    response headers as a mapping from strings to strings, the body text,
    the response URL and the upper-cased method the request was made with. *)
Theorem completed_response_is_success
    (arguments : dict) (st : state) (req : request) (r : response) (body : string) :
  issued (handle_api_call R arguments) st = [req] ->
  http R req = NetResponse r ->
  resp_text r = Return body ->
  exists mu : string,
    method_of R arguments = Return mu
    /\ req_method req = mu
    /\ fst (handle_api_call R arguments st)
       = Return [ {| type := "text";
                     text := json_dumps R
                       (PDict [("status_code", PInt (resp_status r));
                               ("headers",
                                PDict (map (fun kv => (fst kv, PStr (snd kv)))
                                           (resp_headers r)));
                               ("body", PStr body);
                               ("url", PStr (resp_url r));
                               ("method", PStr mu)]) |} ].
Proof.
  intros Hi Hr Ht.
  destruct (method_of R arguments) as [mu|e] eqn:Hm.
  - exists mu. rewrite (issued_handle_api_call _ _ _ Hm) in Hi.
    rewrite (handle_api_call_unrolled _ _ _ Hm). cbv zeta.
    destruct (prepared _ _ _) as [req'|e] eqn:Hp; [|discriminate].
    injection Hi as ->. rewrite Hr, Ht.
    split; [reflexivity | split; [exact (prepared_method _ _ _ _ Hp) | reflexivity]].
  - unfold issued in Hi. rewrite (handle_api_call_method_raises _ _ _ Hm) in Hi.
    cbn [snd] in Hi. rewrite drop_all in Hi. discriminate.
Qed.


(** C10.  With method POST or PUT and a body argument that is present but
    the empty string, the issued request has no payload and its headers are
    the caller's, unchanged: no [Content-Type] is added. *)
Theorem empty_body_is_no_body (arguments : dict) (st : state) (mu : string) :
  method_of R arguments = Return mu ->
  mu = "POST" \/ mu = "PUT" ->
  dict_lookup arguments "body" = Some (PStr EmptyString) ->
  exists req : request,
    issued (handle_api_call R arguments) st = [req]
    /\ req_method req = mu
    /\ req_data req = None
    /\ req_headers req = dict_get arguments "headers" (PDict []).
Proof.
  intros Hm _ Hb.
  rewrite (issued_handle_api_call _ _ _ Hm).
  rewrite prepared_without_body by (unfold dict_get; now rewrite Hb).
  eexists. repeat split.
Qed.

(** C8.  For every city string and in every world, [weather_api] returns one
    text block, the JSON text of an object with the six fixed keys, whose
    [city] is the given string and whose [note] says the data is mock data;
    the call issues no request. *)
Theorem weather_api_is_mock (c : string) (st : state) :
  exists d : dict,
    fst (handle_call_tool R "weather_api" [("city", PStr c)] st)
    = Return (Content [ {| type := "text"; text := json_dumps R (PDict d) |} ])
    /\ map fst d
       = ["city"; "temperature"; "description"; "humidity"; "wind_speed"; "note"]
    /\ dict_lookup d "city" = Some (PStr c)
    /\ dict_lookup d "note"
       = Some (PStr "This is mock data. Replace with real API key for actual data.")
    /\ issued (handle_call_tool R "weather_api" [("city", PStr c)]) st = [].
Proof.
  eexists. unfold issued.
  cbn [handle_call_tool String.eqb Ascii.eqb Bool.eqb].
  unfold handle_weather_api, bind, try_except, ret.
  rewrite get_http_session_returns. cbn [fst snd].
  rewrite after_acquire_requests, drop_all.
  repeat split.
Qed.

End Fetch.

(** ** Lifecycle of the shared session *)

Section Lifecycle.

Lemma live_not_closed (st : state) (i : nat) :
  live st i -> session_closed st i = false.
Proof. unfold live, session_closed. now intros ->. Qed.

Lemma not_closed_live (st : state) (i : nat) :
  session_closed st i = false -> live st i.
Proof.
  unfold live, session_closed.
  destruct (sessions st !! i) as [[|]|]; intros H; try discriminate; reflexivity.
Qed.

Lemma only_current_live_same (a b : state) :
  same_sessions a b -> only_current_live a -> only_current_live b.
Proof.
  intros [Hg Hs] Ha i. unfold only_current_live, live in *.
  rewrite <- Hg, <- Hs. apply Ha.
Qed.

Lemma only_current_live_acquire (st : state) :
  only_current_live st -> only_current_live (after_acquire st).
Proof.
  intros Hinv.
  destruct (get_http_session_cases st)
    as [(i & _ & _ & _ & ->) | (Hcur & _ & ->)]; [exact Hinv|].
  intros j Hj. unfold live in Hj. cbn [sessions http_session] in *.
  destruct (decide (j < length (sessions st))) as [Hlt|Hge].
  - rewrite lookup_app_l in Hj by exact Hlt.
    pose proof (Hinv j Hj) as Hglobal.
    destruct Hcur as [Hnone | (i & Hi & Hclosed)].
    + congruence.
    + rewrite Hi in Hglobal. injection Hglobal as ->.
      rewrite (live_not_closed _ _ Hj) in Hclosed. discriminate.
  - apply lookup_lt_Some in Hj. rewrite length_app in Hj. cbn in Hj.
    f_equal. lia.
Qed.

Lemma only_current_live_close (i : nat) (st : state) :
  only_current_live st -> only_current_live (close_session i st).
Proof.
  intros Hinv j Hj. unfold live, close_session in *. cbn [sessions http_session] in *.
  destruct (decide (i = j)) as [->|Hne].
  - apply list_lookup_insert_Some in Hj as [(_ & Hj & _) | (Hjj & _)];
      [discriminate | congruence].
  - rewrite list_lookup_insert_ne in Hj by exact Hne. now apply Hinv.
Qed.

Lemma bind_ret_snd {A B : Type} (m : M A) (f : A -> B) (st : state) :
  snd ((x <- m ;; ret (f x)) st) = snd (m st).
Proof. unfold bind, ret. destruct (m st) as [[a|e] st']; reflexivity. Qed.

(** A tool call touches the session world through acquisition only. *)
Lemma handle_call_tool_sessions (R : Runtime) (name : string) (arguments : dict)
    (st : state) :
  same_sessions st (snd (handle_call_tool R name arguments st))
  \/ same_sessions (after_acquire st) (snd (handle_call_tool R name arguments st)).
Proof.
  unfold handle_call_tool.
  destruct (String.eqb name "debug_info"); [left; split; reflexivity|].
  destruct (String.eqb name "fetch_api_data").
  - rewrite bind_ret_snd.
    destruct (method_of R arguments) as [mu|e] eqn:Hm.
    + right. rewrite (handle_api_call_unrolled _ _ _ _ Hm). cbv zeta.
      destruct (prepared _ _ _) as [req|e]; [|split; reflexivity].
      destruct (http R req) as [r|e]; [destruct (resp_text r) as [t|e]|];
        split; reflexivity.
    + left. rewrite (handle_api_call_method_raises _ _ _ _ Hm). split; reflexivity.
  - destruct (String.eqb name "weather_api"); [|left; split; reflexivity].
    right. rewrite bind_ret_snd. unfold handle_weather_api, try_except, bind, ret.
    rewrite get_http_session_returns. split; reflexivity.
Qed.

Lemma only_current_live_step (ev : event) (st : state) :
  only_current_live st -> only_current_live (step ev st).
Proof.
  intros Hinv. destruct ev as [R name arguments | i]; cbn [step].
  - destruct (handle_call_tool_sessions R name arguments st) as [Hs | Hs].
    + exact (only_current_live_same _ _ Hs Hinv).
    + exact (only_current_live_same _ _ Hs (only_current_live_acquire _ Hinv)).
  - now apply only_current_live_close.
Qed.

Lemma only_current_live_run (evs : list event) (st : state) :
  only_current_live st -> only_current_live (server_run evs st).
Proof.
  revert st. induction evs as [|ev evs IH]; intros st Hinv; [exact Hinv|].
  cbn. apply IH. now apply only_current_live_step.
Qed.

Lemma only_current_live_initial : only_current_live initial_state.
Proof. intros i Hi. unfold live in Hi. cbn in Hi. discriminate. Qed.

(** After the [finally] block no session object is open. *)
Lemma main_finally_closes (st : state) (i : nat) :
  only_current_live st -> ~ live (main_finally st) i.
Proof.
  intros Hinv Hi. unfold main_finally in Hi.
  destruct (http_session st) as [c|] eqn:Hc.
  - destruct (session_closed st c) eqn:Hclosed; cbn [negb] in Hi.
    + pose proof (Hinv i Hi) as Hcur. rewrite Hc in Hcur. injection Hcur as ->.
      rewrite (live_not_closed _ _ Hi) in Hclosed. discriminate.
    + unfold live, close_session in Hi. cbn [sessions] in Hi.
      apply list_lookup_insert_Some in Hi as [(_ & Hi & _) | (Hne & Hi)];
        [discriminate|].
      pose proof (Hinv i Hi) as Hcur. congruence.
  - pose proof (Hinv i Hi) as Hcur. congruence.
Qed.

(** What the [finally] block leaves of a world in which only the current
    session can be open: every session object of that world, closed. *)
Lemma main_finally_all_closed (st : state) (i : nat) :
  only_current_live st ->
  i < length (sessions st) ->
  sessions (main_finally st) !! i = Some true.
Proof.
  intros Hinv Hi.
  destruct (lookup_lt_is_Some_2 _ _ Hi) as [c Hc].
  unfold main_finally.
  destruct c.
  - destruct (http_session st) as [j|]; [|exact Hc].
    destruct (negb (session_closed st j)); [|exact Hc].
    unfold close_session. cbn [sessions].
    destruct (decide (j = i)) as [->|Hne].
    + now apply list_lookup_insert_eq.
    + now rewrite list_lookup_insert_ne.
  - rewrite (Hinv i Hc), (live_not_closed st i Hc). cbn [negb].
    unfold close_session. cbn [sessions]. now apply list_lookup_insert_eq.
Qed.

Lemma main_finally_keeps (st : state) :
  length (sessions (main_finally st)) = length (sessions st)
  /\ requests (main_finally st) = requests st.
Proof.
  unfold main_finally.
  destruct (http_session st) as [j|]; [|auto].
  destruct (negb (session_closed st j)); [|auto].
  unfold close_session. cbn [sessions requests]. now rewrite length_insert.
Qed.

(** C5.  The session global starts empty and the first acquisition creates
    the first session object; an acquisition that finds an open current
    session returns it and changes nothing; an acquisition creates a new
    object exactly when the global is empty or its session is closed, and
    what it returns is open; after any sequence of tool calls and closings
    at most one session object is open; and [main], which serves the run and
    then runs its [finally] block, ends in the world of the run (the same
    session objects, the same request log) with every session object the
    run created closed, the one the run left open included. *)
Theorem session_lifecycle (evs : list event) :
  (http_session initial_state = None
   /\ sessions initial_state = []
   /\ get_http_session initial_state
      = (Return 0, {| http_session := Some 0; sessions := [false]; requests := [] |}))
  /\ (forall (st : state) (i : nat),
        http_session st = Some i -> session_closed st i = false ->
        get_http_session st = (Return i, st))
  /\ (forall st : state,
        (length (sessions (after_acquire st)) = S (length (sessions st))
         <-> (http_session st = None
              \/ exists i, http_session st = Some i /\ session_closed st i = true))
        /\ (length (sessions (after_acquire st)) = length (sessions st)
            \/ length (sessions (after_acquire st)) = S (length (sessions st)))
        /\ live (after_acquire st) (session_of st))
  /\ (forall i j : nat,
        live (server_run evs initial_state) i ->
        live (server_run evs initial_state) j -> i = j)
  /\ (forall i : nat, ~ live (main evs) i)
  /\ length (sessions (main evs)) = length (sessions (server_run evs initial_state))
  /\ requests (main evs) = requests (server_run evs initial_state)
  /\ (forall i : nat,
        i < length (sessions (server_run evs initial_state)) ->
        sessions (main evs) !! i = Some true)
  /\ (forall i : nat,
        live (server_run evs initial_state) i ->
        sessions (main evs) !! i = Some true).
Proof.
  pose proof (only_current_live_run evs _ only_current_live_initial) as Hinv.
  split; [repeat split|]. split; [|split; [|split; [|split; [|split; [|split; [|split]]]]]].
  - intros st i Hi Hc. unfold get_http_session. now rewrite Hi, Hc.
  - intros st.
    destruct (get_http_session_cases st)
      as [(i & Hi & Hc & -> & ->) | (Hcur & -> & ->)].
    + split; [split|split].
      * lia.
      * intros [Hnone | (j & Hj & Hjc)]; [congruence|].
        rewrite Hi in Hj. injection Hj as ->. congruence.
      * now left.
      * now apply not_closed_live.
    + cbn [sessions]. rewrite length_app. cbn [length].
      split; [split|split].
      * intros _. exact Hcur.
      * intros _. lia.
      * right. lia.
      * unfold live. cbn [sessions]. now rewrite lookup_app_r, Nat.sub_diag.
  - intros i j Hi Hj. pose proof (Hinv i Hi). pose proof (Hinv j Hj). congruence.
  - intros i. now apply main_finally_closes.
  - apply main_finally_keeps.
  - apply main_finally_keeps.
  - intros i Hi. now apply main_finally_all_closed.
  - intros i Hi. apply main_finally_all_closed; [exact Hinv|].
    exact (lookup_lt_Some _ _ _ Hi).
Qed.

End Lifecycle.

(** ** The statements at concrete inputs *)

(** The dispatcher of [mcpserver.py] on the same unknown name: it raises. *)
Example mcpserver_nonexistent_tool_raises :
  mcpserver.handle_call_tool (sample_runtime unreachable_peer) "nonexistent_tool" []
  = Raise (Exn ValueError "Unknown tool: nonexistent_tool").
Proof. reflexivity. Qed.

(** An unreachable host is reported as content. *)
Example unreachable_host_reported :
  fst (handle_call_tool (sample_runtime unreachable_peer) "fetch_api_data"
         get_example initial_state)
  = Return (Content [text_block
      (show (PDict [("error", PStr "HTTP Client Error");
                    ("message", PStr "Cannot connect to host");
                    ("url", PStr "http://localhost/status");
                    ("method", PStr "GET")]))]).
Proof. reflexivity. Qed.

(** The world of [lifecycle_example]: two session objects were made, the
    first one closed, and [main] leaves both closed. *)
Example lifecycle_example_sessions :
  sessions (server_run lifecycle_example initial_state) = [true; false]
  /\ http_session (server_run lifecycle_example initial_state) = Some 1
  /\ sessions (main lifecycle_example) = [true; true].
Proof. repeat split. Qed.

(** [URI] matching is exact: another capitalisation is unknown. *)
Lemma read_resource_exact_match_witness :
  "config://Settings" <> "config://settings"
  /\ "config://Settings" <> "debug://logs"
  /\ mcpserver.handle_read_resource (sample_runtime unreachable_peer) "config://Settings"
     = Raise (Exn ValueError "Unknown resource: config://Settings").
Proof.
  split; [discriminate | split; [discriminate |]].
  apply (proj2 (proj2 (read_resource_exact_match (sample_runtime unreachable_peer))));
    discriminate.
Defined.

Lemma debug_info_lists_enumerated_tools_witness :
  exists (v : pyval) (names : list string),
    handle_call_tool (sample_runtime unreachable_peer) "debug_info" [] initial_state
    = (Return (Content [ {| type := "text"; text := show v |} ]), initial_state)
    /\ tools_available v = Some (map PStr names)
    /\ (forall n : string, In n names <-> In n (map Tool.name handle_list_tools)).
Proof.
  exact (proj1 (debug_info_lists_enumerated_tools
                  (sample_runtime unreachable_peer) [] initial_state)).
Defined.

(** C3 as stated fails on a body that is supplied but empty: with method
    POST and [body = ""] the request goes out without payload and without
    [Content-Type]. *)
Lemma empty_body_not_sent :
  method_of (sample_runtime (echo_peer 200)) post_empty_body_example = Return "POST"
  /\ dict_lookup post_empty_body_example "body" = Some (PStr EmptyString)
  /\ dict_get post_empty_body_example "headers" (PDict []) = PDict []
  /\ issued (handle_api_call (sample_runtime (echo_peer 200)) post_empty_body_example)
       initial_state
     = [Request 0 "POST" (PStr "http://localhost/echo") (PDict []) false None]
  /\ ~ sends_body (sample_runtime (echo_peer 200)) post_empty_body_example
         initial_state (PStr EmptyString) [].
Proof.
  split; [reflexivity | split; [reflexivity | split; [reflexivity | split; [reflexivity|]]]].
  intros (req & Hissued & Hdata & _).
  vm_compute in Hissued. injection Hissued as <-. discriminate Hdata.
Qed.

Lemma truthy_body_sent_with_default_content_type_witness :
  method_of (sample_runtime (echo_peer 200)) post_example = Return "POST"
  /\ dict_lookup post_example "body" = Some (PStr "{}")
  /\ truthy (PStr "{}") = true
  /\ dict_get post_example "headers" (PDict []) = PDict []
  /\ sends_body (sample_runtime (echo_peer 200)) post_example initial_state
       (PStr "{}") [].
Proof.
  split; [reflexivity | split; [reflexivity | split; [reflexivity | split; [reflexivity|]]]].
  apply (truthy_body_sent_with_default_content_type
           (sample_runtime (echo_peer 200)) post_example initial_state
           "POST" (PStr "{}") []);
    [reflexivity | left; reflexivity | reflexivity | reflexivity | reflexivity].
Defined.

Lemma completed_response_is_success_witness :
  exists mu : string,
    method_of (sample_runtime (echo_peer 404)) get_example = Return mu
    /\ req_method (Request 0 "GET" (PStr "http://localhost/status") (PDict []) false None)
       = mu
    /\ fst (handle_api_call (sample_runtime (echo_peer 404)) get_example initial_state)
       = Return [ {| type := "text";
                     text := show
                       (PDict [("status_code", PInt 404);
                               ("headers", PDict []);
                               ("body", PStr "{}");
                               ("url", PStr "http://localhost/status");
                               ("method", PStr mu)]) |} ].
Proof.
  apply (completed_response_is_success
           (sample_runtime (echo_peer 404)) get_example initial_state
           (Request 0 "GET" (PStr "http://localhost/status") (PDict []) false None)
           (Response 404 [] (Return "{}") "http://localhost/status") "{}");
    reflexivity.
Defined.


Lemma empty_body_is_no_body_witness :
  exists req : request,
    issued (handle_api_call (sample_runtime (echo_peer 200)) post_empty_body_example)
      initial_state = [req]
    /\ req_method req = "POST"
    /\ req_data req = None
    /\ req_headers req = PDict [].
Proof.
  apply (empty_body_is_no_body
           (sample_runtime (echo_peer 200)) post_empty_body_example initial_state "POST");
    [reflexivity | left; reflexivity | reflexivity].
Defined.

Lemma session_lifecycle_witness :
  (forall i j : nat,
      live (server_run lifecycle_example initial_state) i ->
      live (server_run lifecycle_example initial_state) j -> i = j)
  /\ (forall i : nat, ~ live (main lifecycle_example) i)
  /\ live (server_run lifecycle_example initial_state) 1
  /\ sessions (main lifecycle_example) !! 1 = Some true
  /\ sessions (main lifecycle_example) !! 0 = Some true
  /\ length (sessions (main lifecycle_example)) = 2.
Proof.
  destruct (session_lifecycle lifecycle_example)
    as (_ & _ & _ & Hone & Hnone & Hlen & _ & Hall & Hopen).
  split; [exact Hone | split; [exact Hnone | split; [reflexivity|]]].
  split; [apply Hopen; reflexivity | split; [apply Hall; vm_compute; lia | exact Hlen]].
Defined.

(** C4 as stated fails on a response whose body cannot be read: the peer
    answers 200, the one request of the call completes with that status
    code, and [await response.text()] raises inside the [try]; the call
    returns an "Unexpected Error" report without a status code. *)
Lemma undecodable_body_not_reported :
  issued (handle_api_call (sample_runtime undecodable_peer) binary_example) initial_state
  = [Request 0 "GET" (PStr "http://localhost/blob") (PDict []) false None]
  /\ (exists r : response,
        http (sample_runtime undecodable_peer)
          (Request 0 "GET" (PStr "http://localhost/blob") (PDict []) false None)
        = NetResponse r
        /\ resp_status r = 200%Z
        /\ fst (handle_api_call (sample_runtime undecodable_peer) binary_example
                  initial_state)
           = Return [text_block
               (show (PDict [("error", PStr "Unexpected Error");
                             ("message",
                              PStr "'utf-8' codec can't decode byte 0xff in position 0: invalid start byte");
                             ("url", PStr "http://localhost/blob");
                             ("method", PStr "GET")]))]
        /\ forall blocks : list TextContent,
             fst (handle_api_call (sample_runtime undecodable_peer) binary_example
                    initial_state) = Return blocks ->
             ~ reports_response (sample_runtime undecodable_peer) r blocks).
Proof.
  split; [reflexivity|].
  eexists. split; [reflexivity|]. split; [reflexivity|]. split; [reflexivity|].
  intros blocks Hblocks (body & mu & Hrep). subst blocks.
  vm_compute in Hblocks. discriminate Hblocks.
Qed.


(** ** Dispatch and the enumerations *)

Section Registry.

Variable R : Runtime.

(** In [mcpserver.py] the dispatcher serves exactly the enumerated tools:
    an enumerated name gives one text block whatever the arguments, any
    other name raises. *)
Theorem mcpserver_call_tool_serves_enumerated (name : string) (arguments : dict) :
  (In name (map Tool.name mcpserver.handle_list_tools) ->
   exists s : string,
     mcpserver.handle_call_tool R name arguments
     = Return [ {| type := "text"; text := s |} ])
  /\ (~ In name (map Tool.name mcpserver.handle_list_tools) ->
      mcpserver.handle_call_tool R name arguments
      = Raise (Exn ValueError ("Unknown tool: " +:+ name))).
Proof.
  unfold mcpserver.handle_call_tool. cbn [map mcpserver.handle_list_tools Tool.name].
  destruct (String.eqb name "echo") eqn:Hecho.
  - split; [eauto|]. apply String.eqb_eq in Hecho. intros Hn. exfalso. apply Hn.
    left. now symmetry.
  - destruct (String.eqb name "debug_info") eqn:Hdebug.
    + split; [eauto|]. apply String.eqb_eq in Hdebug. intros Hn. exfalso. apply Hn.
      right. left. now symmetry.
    + apply String.eqb_neq in Hecho, Hdebug. split; [|reflexivity].
      intros [H|[H|[]]]; congruence.
Qed.

(** In [TestHttpToolsMcpServer.py] a call ends in one of three ways: one
    text block, for an enumerated tool; the [ValueError] object as the
    value, exactly for the names that are not enumerated, the world
    untouched; or an exception, only from [fetch_api_data] when its method
    cannot be upper-cased, the world untouched. *)
Theorem httptools_call_tool_outcomes (name : string) (arguments : dict) (st : state) :
  match handle_call_tool R name arguments st with
  | (Return (Content blocks), _) =>
      In name (map Tool.name handle_list_tools)
      /\ exists s : string, blocks = [ {| type := "text"; text := s |} ]
  | (Return (ExcObject e), st') =>
      ~ In name (map Tool.name handle_list_tools)
      /\ e = Exn ValueError ("Unknown tool:" +:+ name)
      /\ st' = st
  | (Raise e, st') =>
      name = "fetch_api_data" /\ method_of R arguments = Raise e /\ st' = st
  end.
Proof.
  unfold handle_call_tool. cbn [map handle_list_tools Tool.name].
  destruct (String.eqb name "debug_info") eqn:H1.
  { apply String.eqb_eq in H1. cbn. split; [now left | eauto]. }
  destruct (String.eqb name "fetch_api_data") eqn:H2.
  { apply String.eqb_eq in H2. unfold bind at 1.
    destruct (method_of R arguments) as [mu|e] eqn:Hm.
    - destruct (handle_api_call_contained R arguments st mu Hm) as (v & st' & -> & _).
      cbn. split; [now right; left | unfold text_block; eauto].
    - rewrite (handle_api_call_method_raises R _ _ _ Hm). auto. }
  destruct (String.eqb name "weather_api") eqn:H3.
  { apply String.eqb_eq in H3. unfold bind at 1, handle_weather_api, try_except, bind.
    rewrite get_http_session_returns. cbn.
    split; [now right; right; left | unfold text_block; eauto]. }
  apply String.eqb_neq in H1, H2, H3. cbn. split; [|auto].
  intros [H|[H|[H|[]]]]; congruence.
Qed.

(** A URI can be read exactly when [list_resources] enumerates it. *)
Theorem read_resource_serves_enumerated (uri : string) :
  In uri (map Resource.uri mcpserver.handle_list_resources)
  <-> exists s : string, mcpserver.handle_read_resource R uri = Return s.
Proof.
  unfold mcpserver.handle_read_resource.
  cbn [map mcpserver.handle_list_resources Resource.uri].
  destruct (String.eqb uri "config://settings") eqn:H1.
  { apply String.eqb_eq in H1. split; [eauto | intros _; left; now symmetry]. }
  destruct (String.eqb uri "debug://logs") eqn:H2.
  { apply String.eqb_eq in H2. split; [eauto | intros _; right; left; now symmetry]. }
  apply String.eqb_neq in H1, H2. split.
  - intros [H|[H|[]]]; congruence.
  - intros [s Hs]. discriminate Hs.
Qed.

(** In [mcpserver.py] every resource [debug_info] reports can be read, but
    the report is not complete: ["debug://logs"] can be read and is not
    reported. *)
Theorem mcpserver_debug_info_underreports_resources (arguments : dict) :
  exists (v : pyval) (uris : list string),
    mcpserver.handle_call_tool R "debug_info" arguments
    = Return [ {| type := "text"; text := json_dumps R v |} ]
    /\ resources_available v = Some (map PStr uris)
    /\ Forall (fun u => exists s, mcpserver.handle_read_resource R u = Return s) uris
    /\ ~ In "debug://logs" uris
    /\ exists s : string, mcpserver.handle_read_resource R "debug://logs" = Return s.
Proof.
  exists (mcpserver.debug_data R), ["config://settings"].
  split; [reflexivity | split; [reflexivity | split; [|split]]].
  - repeat constructor. eexists. reflexivity.
  - intros [H|[]]. discriminate H.
  - eexists. reflexivity.
Qed.

End Registry.

(** ** More on the [fetch_api_data] and [weather_api] handlers *)

Section Handlers.

Variable R : Runtime.

(** What acquisition leaves: the global refers to the returned session and
    that session is open. *)
Lemma acquire_current (st : state) :
  http_session (after_acquire st) = Some (session_of st)
  /\ live (after_acquire st) (session_of st).
Proof.
  destruct (get_http_session_cases st)
    as [(i & Hi & Hc & -> & ->) | (_ & -> & ->)].
  - split; [exact Hi | now apply not_closed_live].
  - split; [reflexivity|]. unfold live. cbn [sessions].
    now rewrite lookup_app_r, Nat.sub_diag.
Qed.

(** After a run that got past the method, the session world is the one
    acquisition left. *)
Lemma handle_api_call_sessions (arguments : dict) (st : state) (mu : string) :
  method_of R arguments = Return mu ->
  same_sessions (after_acquire st) (snd (handle_api_call R arguments st)).
Proof.
  intros Hm. rewrite (handle_api_call_unrolled _ _ _ _ Hm). cbv zeta.
  destruct (prepared _ _ _) as [req|e]; [|split; reflexivity].
  destruct (http R req) as [r|e]; [destruct (resp_text r) as [t|e]|];
    split; reflexivity.
Qed.

Lemma live_same (a b : state) (i : nat) :
  same_sessions a b -> live a i -> live b i.
Proof. intros [_ Hs]. unfold live. now rewrite Hs. Qed.

Lemma method_of_cases (arguments : dict) :
  match dict_lookup arguments "method" with
  | None => method_of R arguments = Return (str_upper R "GET")
  | Some (PStr m) => method_of R arguments = Return (str_upper R m)
  | Some _ => exists e, method_of R arguments = Raise e /\ exn_cls e = AttributeError
  end.
Proof.
  unfold method_of, dict_get.
  destruct (dict_lookup arguments "method") as [[| | | | | |]|]; cbn; eauto.
Qed.

(** [handle_api_call] raises exactly when a [method] argument is present and
    is not a string; the exception is an [AttributeError] and the world is
    untouched (no session is acquired, nothing is sent).  In every other
    case it returns one text block. *)
Theorem handle_api_call_raises_only_on_method (arguments : dict) (st : state) :
  match handle_api_call R arguments st with
  | (Raise e, st') =>
      (exists v, dict_lookup arguments "method" = Some v /\ is_str v = false)
      /\ exn_cls e = AttributeError
      /\ st' = st
  | (Return blocks, _) =>
      (dict_lookup arguments "method" = None
       \/ exists m, dict_lookup arguments "method" = Some (PStr m))
      /\ exists s : string, blocks = [ {| type := "text"; text := s |} ]
  end.
Proof.
  pose proof (method_of_cases arguments) as Hc.
  destruct (dict_lookup arguments "method") as [v|] eqn:Hl.
  - destruct v;
      try (destruct Hc as (e & Hm & Hcls);
           rewrite (handle_api_call_method_raises R _ _ _ Hm);
           split; [eexists; split; [reflexivity | reflexivity] | auto]).
    destruct (handle_api_call_contained R arguments st _ Hc) as (v & st' & -> & _).
    split; [right; eauto | unfold text_block; eauto].
  - destruct (handle_api_call_contained R arguments st _ Hc) as (v & st' & -> & _).
    split; [now left | unfold text_block; eauto].
Qed.

(** A call issues at most one request.  The request it issues is made with
    certificate checking off, on the session acquisition returned, which is
    open and is the one the global refers to afterwards, with the [url]
    argument as it came ([None] when missing) and the upper-cased method. *)
Theorem issued_request_shape (arguments : dict) (st : state) (req : request) :
  In req (issued (handle_api_call R arguments) st) ->
  issued (handle_api_call R arguments) st = [req]
  /\ req_ssl req = false
  /\ req_url req = dict_get arguments "url" PNone
  /\ method_of R arguments = Return (req_method req)
  /\ req_session req = session_of st
  /\ live (snd (handle_api_call R arguments st)) (req_session req)
  /\ http_session (snd (handle_api_call R arguments st)) = Some (req_session req).
Proof.
  intros Hin.
  destruct (method_of R arguments) as [mu|e] eqn:Hm.
  - pose proof (handle_api_call_sessions arguments st mu Hm) as Hs.
    destruct (acquire_current st) as [Hcur Hlive].
    rewrite (issued_handle_api_call _ _ _ _ Hm) in *.
    destruct (prepared (session_of st) mu arguments) as [req'|e] eqn:Hp; [|destruct Hin].
    destruct Hin as [<-|[]].
    assert (Hmu := prepared_method _ _ _ _ Hp).
    assert (req_ssl req' = false /\ req_url req' = dict_get arguments "url" PNone
            /\ req_session req' = session_of st) as (Hssl & Hurl & Hsess).
    { revert Hp. unfold prepared. destruct (truthy _ && _).
      - destruct (py_contains _ _) as [[|]|e]; [| |discriminate].
        + intros [= <-]. auto.
        + destruct (py_setitem _ _ _) as [h'|e]; [|discriminate].
          intros [= <-]. auto.
      - intros [= <-]. auto. }
    rewrite Hsess, Hmu. repeat split; auto.
    + exact (live_same _ _ _ Hs Hlive).
    + destruct Hs as [Hg _]. now rewrite <- Hg.
  - unfold issued in Hin. rewrite (handle_api_call_method_raises R _ _ _ Hm) in Hin.
    cbn [snd] in Hin. rewrite drop_all in Hin. destruct Hin.
Qed.

(** A request that fails, or whose body cannot be read, is reported as one
    text block with the category ("HTTP Client Error" for an
    [aiohttp.ClientError], "Unexpected Error" for anything else), the text of
    the exception, the [url] argument and the method; the status code of a
    response whose body could not be read is not reported. *)
Theorem failed_request_is_reported
    (arguments : dict) (st : state) (req : request) (e : exn) :
  issued (handle_api_call R arguments) st = [req] ->
  http R req = NetError e
  \/ (exists r, http R req = NetResponse r /\ resp_text r = Raise e) ->
  exists mu : string,
    method_of R arguments = Return mu
    /\ fst (handle_api_call R arguments st)
       = Return [ {| type := "text";
                     text := json_dumps R
                       (PDict [("error", PStr (if is_client_error e
                                               then "HTTP Client Error"
                                               else "Unexpected Error"));
                               ("message", PStr (exn_str e));
                               ("url", dict_get arguments "url" PNone);
                               ("method", PStr mu)]) |} ].
Proof.
  intros Hi Hfail.
  destruct (method_of R arguments) as [mu|e'] eqn:Hm.
  - exists mu. split; [reflexivity|].
    rewrite (issued_handle_api_call _ _ _ _ Hm) in Hi.
    rewrite (handle_api_call_unrolled _ _ _ _ Hm). cbv zeta.
    destruct (prepared _ _ _) as [req'|e''] eqn:Hp; [|discriminate].
    injection Hi as ->.
    destruct Hfail as [-> | (r & -> & ->)]; reflexivity.
  - unfold issued in Hi. rewrite (handle_api_call_method_raises R _ _ _ Hm) in Hi.
    cbn [snd] in Hi. rewrite drop_all in Hi. discriminate.
Qed.

(** With a truthy body under POST, PUT or PATCH, headers that are neither a
    mapping, a list nor a string stop the call before anything is sent: the
    [TypeError] of the [Content-Type] test is reported as an "Unexpected
    Error". *)
Theorem scalar_headers_stop_the_request
    (arguments : dict) (st : state) (mu : string) (body hv : pyval) :
  method_of R arguments = Return mu ->
  existsb (String.eqb mu) ["POST"; "PUT"; "PATCH"] = true ->
  dict_lookup arguments "body" = Some body ->
  truthy body = true ->
  dict_lookup arguments "headers" = Some hv ->
  is_scalar hv = true ->
  issued (handle_api_call R arguments) st = []
  /\ exists e : exn,
       exn_cls e = TypeError
       /\ fst (handle_api_call R arguments st)
          = Return [ {| type := "text";
                        text := json_dumps R
                          (PDict [("error", PStr "Unexpected Error");
                                  ("message", PStr (exn_str e));
                                  ("url", dict_get arguments "url" PNone);
                                  ("method", PStr mu)]) |} ].
Proof.
  intros Hm He Hb Ht Hh Hs.
  assert (Hbody : dict_get arguments "body" PNone = body)
    by (unfold dict_get; now rewrite Hb).
  assert (Hhdr : dict_get arguments "headers" (PDict []) = hv)
    by (unfold dict_get; now rewrite Hh).
  assert (Hp : exists e, exn_cls e = TypeError
                         /\ prepared (session_of st) mu arguments = Raise e).
  { unfold prepared. rewrite Hbody, Ht, He, Hhdr. cbn [andb].
    destruct hv; try discriminate Hs; cbn [py_contains];
      (eexists; split; [|reflexivity]; reflexivity). }
  destruct Hp as (e & Hcls & Hp).
  rewrite (issued_handle_api_call _ _ _ _ Hm), (handle_api_call_unrolled _ _ _ _ Hm).
  cbv zeta. rewrite Hp. split; [reflexivity|].
  exists e. split; [exact Hcls|].
  unfold error_blocks, api_error_result, is_client_error. now rewrite Hcls.
Qed.

(** Under any method other than POST, PUT and PATCH a supplied body is
    dropped without notice: the request goes out with no payload and with
    the headers as the caller gave them. *)
Theorem body_ignored_for_other_methods (arguments : dict) (st : state) (mu : string) :
  method_of R arguments = Return mu ->
  mu <> "POST" -> mu <> "PUT" -> mu <> "PATCH" ->
  exists req : request,
    issued (handle_api_call R arguments) st = [req]
    /\ req_method req = mu
    /\ req_data req = None
    /\ req_headers req = dict_get arguments "headers" (PDict []).
Proof.
  intros Hm H1 H2 H3.
  rewrite (issued_handle_api_call _ _ _ _ Hm).
  assert (He : existsb (String.eqb mu) ["POST"; "PUT"; "PATCH"] = false).
  { cbn [existsb]. apply String.eqb_neq in H1, H2, H3. rewrite H1, H2, H3.
    reflexivity. }
  unfold prepared. rewrite He, andb_false_r.
  eexists. repeat split.
Qed.

Lemma dict_lookup_app (d d' : dict) (k : string) :
  dict_lookup (d ++ d')%list k
  = match dict_lookup d k with
    | Some v => Some v
    | None => dict_lookup d' k
    end.
Proof.
  induction d as [|[k' v'] d IH]; cbn; [reflexivity|].
  destruct (String.eqb k' k); [reflexivity | exact IH].
Qed.

(** When a body is sent, the caller's headers all go out with the values
    the caller gave, and the request always has a [Content-Type]: the
    caller's if there is one under exactly that key, [application/json]
    otherwise. *)
Theorem caller_headers_preserved
    (arguments : dict) (st : state) (mu : string) (body : pyval) (h : dict) :
  method_of R arguments = Return mu ->
  existsb (String.eqb mu) ["POST"; "PUT"; "PATCH"] = true ->
  dict_lookup arguments "body" = Some body ->
  truthy body = true ->
  dict_get arguments "headers" (PDict []) = PDict h ->
  exists (req : request) (h' : dict),
    issued (handle_api_call R arguments) st = [req]
    /\ req_headers req = PDict h'
    /\ (forall k v, dict_lookup h k = Some v -> dict_lookup h' k = Some v)
    /\ (forall k, k <> "Content-Type" -> dict_lookup h' k = dict_lookup h k)
    /\ dict_lookup h' "Content-Type"
       = Some (match dict_lookup h "Content-Type" with
               | Some v => v
               | None => PStr "application/json"
               end).
Proof.
  intros Hm He Hb Ht Hh.
  rewrite (issued_handle_api_call _ _ _ _ Hm).
  rewrite (prepared_with_body _ _ _ _ _ Hb Ht He Hh).
  unfold with_default_content_type, dict_contains.
  destruct (dict_lookup h "Content-Type") as [ct|] eqn:Hct.
  - exists (Request (session_of st) mu (dict_get arguments "url" PNone)
                    (PDict h) false (Some body)), h.
    rewrite Hct. repeat split; auto.
  - eexists _, _. split; [reflexivity|]. split; [reflexivity|]. split; [|split].
    + intros k v Hk. rewrite dict_lookup_app. now rewrite Hk.
    + intros k Hk. rewrite dict_lookup_app.
      destruct (dict_lookup h k); [reflexivity|].
      cbn [dict_lookup]. apply not_eq_sym, String.eqb_neq in Hk. now rewrite Hk.
    + rewrite dict_lookup_app, Hct. reflexivity.
Qed.

(** [weather_api] never fails and never reports a "Weather API Error",
    whatever the arguments: the [city] of the result is the argument as it
    came, [None] when it is missing.  The call sends nothing, but it does
    acquire the shared session, creating one when none is open. *)
Theorem weather_api_never_fails (arguments : dict) (st : state) :
  exists d : dict,
    handle_weather_api R arguments st
    = (Return [ {| type := "text"; text := json_dumps R (PDict d) |} ], after_acquire st)
    /\ dict_lookup d "city"
       = Some (match dict_lookup arguments "city" with
               | Some v => v
               | None => PNone
               end)
    /\ dict_lookup d "error" = None
    /\ requests (after_acquire st) = requests st
    /\ has_open_current (after_acquire st) = true.
Proof.
  eexists. unfold handle_weather_api, try_except, bind, ret.
  rewrite get_http_session_returns.
  split; [reflexivity|]. split; [reflexivity|]. split; [reflexivity|].
  split; [apply after_acquire_requests|].
  destruct (acquire_current st) as [Hcur Hlive].
  unfold has_open_current. rewrite Hcur. now rewrite (live_not_closed _ _ Hlive).
Qed.

End Handlers.

(** ** More on the shared session and the request log *)

Section World.

Lemma same_sessions_acquire (a b : state) :
  same_sessions a b ->
  session_of a = session_of b /\ same_sessions (after_acquire a) (after_acquire b).
Proof.
  intros [Hg Hs].
  unfold session_of, after_acquire, get_http_session, session_closed, same_sessions.
  rewrite Hg, Hs.
  destruct (http_session b) as [i|] eqn:Hb; [|cbn; auto].
  destruct (sessions b !! i) as [[|]|]; cbn; repeat split; congruence.
Qed.

Lemma has_open_current_same (a b : state) :
  same_sessions a b -> has_open_current a = has_open_current b.
Proof.
  intros [Hg Hs]. unfold has_open_current, session_closed. now rewrite Hg, Hs.
Qed.

Lemma acquire_has_open_current (st : state) :
  has_open_current (after_acquire st) = true.
Proof.
  destruct (acquire_current st) as [Hcur Hlive].
  unfold has_open_current. rewrite Hcur. now rewrite (live_not_closed _ _ Hlive).
Qed.

(** With an open current session acquisition is a no-op. *)
Lemma acquire_open_current (st : state) :
  has_open_current st = true ->
  after_acquire st = st /\ http_session st = Some (session_of st).
Proof.
  unfold has_open_current. intros Ho.
  destruct (get_http_session_cases st)
    as [(i & Hi & Hc & -> & ->) | ([Hn | (i & Hi & Hc)] & _ & _)].
  - auto.
  - rewrite Hn in Ho. discriminate.
  - rewrite Hi, Hc in Ho. discriminate.
Qed.

(** Without an open current session acquisition adds one object. *)
Lemma acquire_no_open_current (st : state) :
  has_open_current st = false ->
  session_of st = length (sessions st)
  /\ sessions (after_acquire st) = (sessions st ++ [false])%list.
Proof.
  unfold has_open_current. intros Ho.
  destruct (get_http_session_cases st)
    as [(i & Hi & Hc & _ & _) | (_ & -> & ->)].
  - rewrite Hi, Hc in Ho. discriminate.
  - auto.
Qed.

Lemma after_acquire_sessions_grow (st : state) :
  length (sessions st) <= length (sessions (after_acquire st))
  /\ forall i c, sessions st !! i = Some c -> sessions (after_acquire st) !! i = Some c.
Proof.
  destruct (has_open_current st) eqn:Ho.
  - destruct (acquire_open_current _ Ho) as [-> _]. auto.
  - destruct (acquire_no_open_current _ Ho) as [_ ->]. split.
    + rewrite length_app. lia.
    + intros i c Hi. now apply lookup_app_l_Some.
Qed.

(** The fields of a prepared request that do not depend on the branch. *)
Lemma prepared_fields (i : nat) (mu : string) (arguments : dict) (req : request) :
  prepared i mu arguments = Return req ->
  req_session req = i /\ req_ssl req = false.
Proof.
  unfold prepared. destruct (truthy _ && _).
  - destruct (py_contains _ _) as [[|]|e]; [| |discriminate].
    + intros [= <-]. auto.
    + destruct (py_setitem _ _ _) as [h'|e]; [|discriminate].
      intros [= <-]. auto.
  - intros [= <-]. auto.
Qed.

(** What one run of [handle_api_call] adds to the log, and where it leaves
    the sessions. *)
Lemma handle_api_call_log (R : Runtime) (arguments : dict) (st : state) :
  requests (snd (handle_api_call R arguments st))
  = (requests st ++ issued (handle_api_call R arguments) st)%list
  /\ length (issued (handle_api_call R arguments) st) <= 1
  /\ Forall (fun req =>
               req_ssl req = false
               /\ req_session req = session_of st
               /\ same_sessions (after_acquire st) (snd (handle_api_call R arguments st)))
            (issued (handle_api_call R arguments) st).
Proof.
  destruct (method_of R arguments) as [mu|e] eqn:Hm.
  - pose proof (handle_api_call_sessions R arguments st mu Hm) as Hs.
    rewrite (issued_handle_api_call _ _ _ _ Hm).
    revert Hs. rewrite (handle_api_call_unrolled _ _ _ _ Hm). cbv zeta.
    destruct (prepared _ _ _) as [req|e] eqn:Hp.
    + destruct (prepared_fields _ _ _ _ Hp) as [Hsess Hssl].
      intros Hs. split; [|split; [cbn; lia | constructor; [tauto | constructor]]].
      destruct (http R req) as [r|e]; [destruct (resp_text r) as [t|e]|];
        cbn; now rewrite after_acquire_requests.
    + intros _. cbn. rewrite after_acquire_requests, app_nil_r. auto.
  - unfold issued. rewrite (handle_api_call_method_raises _ _ _ _ Hm). cbn [snd].
    rewrite drop_all, app_nil_r. cbn. auto.
Qed.

(** What one event adds to the log. *)
Lemma step_log (ev : event) (st : state) :
  exists more : list request,
    requests (step ev st) = (requests st ++ more)%list
    /\ length more <= (if is_fetch ev then 1 else 0)
    /\ Forall (fun req => req_ssl req = false
                          /\ req_session req < length (sessions (step ev st))) more.
Proof.
  destruct ev as [R name arguments | i]; cbn [step is_fetch].
  - unfold handle_call_tool.
    destruct (String.eqb name "debug_info") eqn:H1.
    { apply String.eqb_eq in H1. subst name. exists []. cbn. now rewrite app_nil_r. }
    destruct (String.eqb name "fetch_api_data") eqn:H2.
    { rewrite bind_ret_snd.
      destruct (handle_api_call_log R arguments st) as (Hlog & Hlen & Hall).
      exists (issued (handle_api_call R arguments) st).
      split; [exact Hlog | split; [exact Hlen|]].
      eapply Forall_impl; [exact Hall|]. cbn beta.
      intros req (Hssl & Hsess & [_ Hs]). split; [exact Hssl|].
      rewrite Hsess, <- Hs.
      destruct (acquire_current st) as [_ Hlive]. exact (lookup_lt_Some _ _ _ Hlive). }
    destruct (String.eqb name "weather_api") eqn:H3.
    { rewrite bind_ret_snd. unfold handle_weather_api, try_except, bind, ret.
      rewrite get_http_session_returns. cbn [snd].
      exists []. rewrite after_acquire_requests, app_nil_r. cbn. auto. }
    exists []. cbn. now rewrite app_nil_r.
  - exists []. cbn. now rewrite app_nil_r.
Qed.

(** One event never removes a session object and never reopens one. *)
Lemma step_sessions_grow (ev : event) (st : state) :
  length (sessions st) <= length (sessions (step ev st))
  /\ forall i, sessions st !! i = Some true -> sessions (step ev st) !! i = Some true.
Proof.
  destruct ev as [R name arguments | i]; cbn [step].
  - destruct (after_acquire_sessions_grow st) as [Hlen Hkeep].
    destruct (handle_call_tool_sessions R name arguments st) as [[_ <-] | [_ <-]]; auto.
  - unfold close_session. cbn [sessions]. rewrite length_insert. split; [lia|].
    intros j Hj. destruct (decide (i = j)) as [->|Hne].
    + apply list_lookup_insert_eq. exact (lookup_lt_Some _ _ _ Hj).
    + now rewrite list_lookup_insert_ne.
Qed.

(** A call made right after a [fetch_api_data] call that got past its
    method creates no session object, leaves the global on the session the
    first call used, and sends what it sends on that session. *)
Theorem next_call_reuses_session
    (R1 : Runtime) (a1 : dict) (mu : string)
    (R2 : Runtime) (name : string) (a2 : dict) (st : state) :
  method_of R1 a1 = Return mu ->
  sessions (snd (handle_call_tool R2 name a2 (snd (handle_api_call R1 a1 st))))
  = sessions (snd (handle_api_call R1 a1 st))
  /\ http_session (snd (handle_call_tool R2 name a2 (snd (handle_api_call R1 a1 st))))
     = Some (session_of st)
  /\ Forall (fun req => req_session req = session_of st)
       (issued (handle_api_call R2 a2) (snd (handle_api_call R1 a1 st))).
Proof.
  intros Hm.
  pose proof (handle_api_call_sessions R1 a1 st mu Hm) as Hs.
  set (st1 := snd (handle_api_call R1 a1 st)) in *.
  assert (Hopen : has_open_current st1 = true)
    by (rewrite <- (has_open_current_same _ _ Hs); apply acquire_has_open_current).
  destruct (acquire_open_current _ Hopen) as [Hsame Hcur].
  assert (Hid : session_of st1 = session_of st).
  { destruct (acquire_current st) as [Hc _]. destruct Hs as [Hg _].
    rewrite Hg, Hcur in Hc. now injection Hc. }
  assert (Hnext : same_sessions st1 (snd (handle_call_tool R2 name a2 st1)))
    by (destruct (handle_call_tool_sessions R2 name a2 st1) as [H|H];
        [exact H | now rewrite Hsame in H]).
  destruct Hnext as [Hg' Hs']. split; [now symmetry|]. split.
  - now rewrite <- Hg', Hcur, Hid.
  - destruct (handle_api_call_log R2 a2 st1) as (_ & _ & Hall).
    eapply Forall_impl; [exact Hall|]. cbn beta.
    intros req (_ & Hsess & _). now rewrite Hsess.
Qed.

Lemma closings_cons (ev : event) (evs : list event) :
  closings (ev :: evs) = (if is_close ev then 1 else 0) + closings evs.
Proof. unfold closings. cbn. now destruct (is_close ev). Qed.

Lemma fetch_calls_cons (ev : event) (evs : list event) :
  fetch_calls (ev :: evs) = (if is_fetch ev then 1 else 0) + fetch_calls evs.
Proof. unfold fetch_calls. cbn. now destruct (is_fetch ev). Qed.

Lemma sessions_bound_step (ev : event) (st : state) (n : nat) :
  length (sessions st) <= n + (if has_open_current st then 1 else 0) ->
  length (sessions (step ev st))
  <= n + (if is_close ev then 1 else 0)
     + (if has_open_current (step ev st) then 1 else 0).
Proof.
  intros Hinv. destruct ev as [R name arguments | i]; cbn [step is_close].
  - assert (Hacq : length (sessions (after_acquire st))
                   <= n + (if has_open_current (after_acquire st) then 1 else 0)).
    { rewrite acquire_has_open_current.
      destruct (has_open_current st) eqn:Ho.
      - destruct (acquire_open_current _ Ho) as [-> _]. exact Hinv.
      - destruct (acquire_no_open_current _ Ho) as [_ ->].
        rewrite length_app. cbn. lia. }
    destruct (handle_call_tool_sessions R name arguments st) as [Hs | Hs];
      rewrite <- (has_open_current_same _ _ Hs); destruct Hs as [_ <-]; lia.
  - unfold close_session at 1. cbn [sessions]. rewrite length_insert.
    destruct (has_open_current st), (has_open_current (close_session i st)); lia.
Qed.

Lemma sessions_bound_run (evs : list event) (st : state) (n : nat) :
  length (sessions st) <= n + (if has_open_current st then 1 else 0) ->
  length (sessions (server_run evs st))
  <= n + closings evs + (if has_open_current (server_run evs st) then 1 else 0).
Proof.
  revert st n. induction evs as [|ev evs IH]; intros st n Hinv.
  - cbn. unfold closings. cbn. lia.
  - cbn [server_run fold_left]. rewrite closings_cons.
    pose proof (IH _ _ (sessions_bound_step ev st n Hinv)) as H.
    unfold server_run in H. lia.
Qed.

(** However many calls are served, a run creates at most one session object
    more than there were closings: without closings, one connection pool
    serves every call.  The [finally] block creates none. *)
Theorem sessions_bounded_by_closings (evs : list event) :
  length (sessions (server_run evs initial_state)) <= 1 + closings evs
  /\ length (sessions (main evs)) = length (sessions (server_run evs initial_state)).
Proof.
  split.
  - assert (H0 : length (sessions initial_state)
                 <= 0 + (if has_open_current initial_state then 1 else 0))
      by (cbn; lia).
    pose proof (sessions_bound_run evs _ _ H0) as H.
    destruct (has_open_current (server_run evs initial_state)); lia.
  - unfold main, main_finally.
    destruct (http_session _) as [i|]; [|reflexivity].
    destruct (negb _); [|reflexivity].
    unfold close_session. cbn [sessions]. apply length_insert.
Qed.

(** The [finally] block closes the session the global refers to and nothing
    else: it changes no other object, keeps the global (which then refers to
    a closed session) and the log, and running it again changes nothing.
    An acquisition after it creates a new session object. *)
Theorem main_finally_closes_current_only (st : state) :
  main_finally (main_finally st) = main_finally st
  /\ has_open_current (main_finally st) = false
  /\ http_session (main_finally st) = http_session st
  /\ requests (main_finally st) = requests st
  /\ (forall j, http_session st <> Some j ->
                sessions (main_finally st) !! j = sessions st !! j)
  /\ session_of (main_finally st) = length (sessions st).
Proof.
  assert (Hcases :
    (main_finally st = st /\ has_open_current st = false)
    \/ (exists i, http_session st = Some i /\ sessions st !! i = Some false
                  /\ main_finally st = close_session i st)).
  { unfold main_finally, has_open_current.
    destruct (http_session st) as [i|] eqn:Hi; [|now left].
    destruct (session_closed st i) eqn:Hc; cbn [negb]; [now left|].
    right. exists i. split; [reflexivity | split; [|reflexivity]].
    now apply not_closed_live. }
  assert (Hclosed : has_open_current (main_finally st) = false).
  { destruct Hcases as [[-> Ho] | (i & Hi & Hl & ->)]; [exact Ho|].
    unfold has_open_current, session_closed, close_session. cbn. rewrite Hi.
    rewrite list_lookup_insert_eq by exact (lookup_lt_Some _ _ _ Hl). reflexivity. }
  assert (Hlen : length (sessions (main_finally st)) = length (sessions st)).
  { destruct Hcases as [[-> _] | (i & _ & _ & ->)]; [reflexivity|].
    unfold close_session. cbn [sessions]. apply length_insert. }
  split; [|split; [exact Hclosed | split; [|split; [|split]]]].
  - unfold main_finally at 1. unfold has_open_current in Hclosed.
    destruct (http_session (main_finally st)) as [i|]; [|reflexivity].
    now rewrite Hclosed.
  - destruct Hcases as [[-> _] | (i & _ & _ & ->)]; reflexivity.
  - destruct Hcases as [[-> _] | (i & _ & _ & ->)]; reflexivity.
  - intros j Hj. destruct Hcases as [[-> _] | (i & Hi & _ & ->)]; [reflexivity|].
    unfold close_session. cbn [sessions].
    apply list_lookup_insert_ne. congruence.
  - destruct (acquire_no_open_current _ Hclosed) as [-> _]. exact Hlen.
Qed.

(** A run only appends to the request log, never removes a session object,
    and never reopens a closed one. *)
Theorem run_only_grows (evs : list event) (st : state) :
  (exists more : list request,
      requests (server_run evs st) = (requests st ++ more)%list)
  /\ length (sessions st) <= length (sessions (server_run evs st))
  /\ (forall i, sessions st !! i = Some true ->
                sessions (server_run evs st) !! i = Some true).
Proof.
  revert st. induction evs as [|ev evs IH]; intros st.
  - cbn. split; [exists []; now rewrite app_nil_r | auto].
  - cbn [server_run fold_left].
    destruct (IH (step ev st)) as ((more' & Hlog') & Hlen' & Hkeep').
    destruct (step_log ev st) as (more & Hlog & _).
    destruct (step_sessions_grow ev st) as [Hlen Hkeep].
    unfold server_run in *. split; [|split].
    + exists (more ++ more')%list. now rewrite Hlog', Hlog, app_assoc.
    + lia.
    + auto.
Qed.

Lemma request_log_run (evs : list event) (st : state) (n : nat) :
  length (requests st) <= n ->
  Forall (fun req => req_ssl req = false /\ req_session req < length (sessions st))
         (requests st) ->
  length (requests (server_run evs st)) <= n + fetch_calls evs
  /\ Forall (fun req => req_ssl req = false
                        /\ req_session req < length (sessions (server_run evs st)))
            (requests (server_run evs st)).
Proof.
  revert st n. induction evs as [|ev evs IH]; intros st n Hlen Hall.
  - cbn. unfold fetch_calls. cbn. split; [lia | exact Hall].
  - cbn [server_run fold_left]. rewrite fetch_calls_cons.
    destruct (step_log ev st) as (more & Hlog & Hmore & Hnew).
    destruct (step_sessions_grow ev st) as [Hgrow _].
    destruct (IH (step ev st) (n + (if is_fetch ev then 1 else 0))) as [H1 H2].
    + rewrite Hlog, length_app. lia.
    + rewrite Hlog. apply Forall_app. split; [|exact Hnew].
      eapply Forall_impl; [exact Hall|]. cbn beta. intros req [Hssl Hs]. split; [exact Hssl | lia].
    + unfold server_run in *. split; [lia | exact H2].
Qed.

(** Over a whole run from the start: there are never more requests than
    [fetch_api_data] calls (one attempt per call, nothing from the other
    tools), and every request was made with certificate checking off on a
    session object of the store. *)
Theorem request_log_invariant (evs : list event) :
  length (requests (server_run evs initial_state)) <= fetch_calls evs
  /\ Forall (fun req =>
               req_ssl req = false
               /\ req_session req < length (sessions (server_run evs initial_state)))
            (requests (server_run evs initial_state)).
Proof.
  apply (request_log_run evs initial_state 0); [cbn; lia | constructor].
Qed.

End World.

(** ** The further statements at concrete inputs *)

Lemma mcpserver_call_tool_serves_enumerated_witness :
  In "echo" (map Tool.name mcpserver.handle_list_tools)
  /\ exists s : string,
       mcpserver.handle_call_tool (sample_runtime unreachable_peer) "echo" []
       = Return [ {| type := "text"; text := s |} ].
Proof.
  split; [left; reflexivity|].
  apply (proj1 (mcpserver_call_tool_serves_enumerated
                  (sample_runtime unreachable_peer) "echo" [])).
  left; reflexivity.
Defined.

Lemma httptools_call_tool_outcomes_witness :
  ~ In "nonexistent_tool" (map Tool.name handle_list_tools)
  /\ Exn ValueError "Unknown tool:nonexistent_tool"
     = Exn ValueError ("Unknown tool:" +:+ "nonexistent_tool")
  /\ initial_state = initial_state.
Proof.
  exact (httptools_call_tool_outcomes
           (sample_runtime unreachable_peer) "nonexistent_tool" [] initial_state).
Defined.

Lemma read_resource_serves_enumerated_witness :
  In "debug://logs" (map Resource.uri mcpserver.handle_list_resources)
  /\ exists s : string,
       mcpserver.handle_read_resource (sample_runtime unreachable_peer) "debug://logs"
       = Return s.
Proof.
  split; [right; left; reflexivity|].
  apply (proj1 (read_resource_serves_enumerated
                  (sample_runtime unreachable_peer) "debug://logs")).
  right; left; reflexivity.
Defined.

Lemma mcpserver_debug_info_underreports_resources_witness :
  exists (v : pyval) (uris : list string),
    mcpserver.handle_call_tool (sample_runtime unreachable_peer) "debug_info" []
    = Return [ {| type := "text"; text := show v |} ]
    /\ resources_available v = Some (map PStr uris)
    /\ Forall (fun u => exists s,
                 mcpserver.handle_read_resource (sample_runtime unreachable_peer) u
                 = Return s) uris
    /\ ~ In "debug://logs" uris
    /\ exists s : string,
         mcpserver.handle_read_resource (sample_runtime unreachable_peer) "debug://logs"
         = Return s.
Proof.
  exact (mcpserver_debug_info_underreports_resources
           (sample_runtime unreachable_peer) []).
Defined.

Lemma handle_api_call_raises_only_on_method_witness :
  (exists v, dict_lookup numeric_method_example "method" = Some v /\ is_str v = false)
  /\ exn_cls (Exn AttributeError "'int' object has no attribute 'upper'") = AttributeError
  /\ initial_state = initial_state.
Proof.
  exact (handle_api_call_raises_only_on_method
           (sample_runtime unreachable_peer) numeric_method_example initial_state).
Defined.

Lemma issued_request_shape_witness :
  issued (handle_api_call (sample_runtime (echo_peer 200)) post_example) initial_state
  = [Request 0 "POST" (PStr "http://localhost/echo")
       (PDict [("Content-Type", PStr "application/json")]) false (Some (PStr "{}"))]
  /\ http_session
       (snd (handle_api_call (sample_runtime (echo_peer 200)) post_example initial_state))
     = Some 0.
Proof.
  destruct (issued_request_shape
              (sample_runtime (echo_peer 200)) post_example initial_state
              (Request 0 "POST" (PStr "http://localhost/echo")
                 (PDict [("Content-Type", PStr "application/json")]) false
                 (Some (PStr "{}"))))
    as (Hissued & _ & _ & _ & _ & _ & Hcur); [left; reflexivity|].
  split; [exact Hissued | exact Hcur].
Defined.

Lemma failed_request_is_reported_witness :
  exists mu : string,
    method_of (sample_runtime unreachable_peer) get_example = Return mu
    /\ fst (handle_api_call (sample_runtime unreachable_peer) get_example initial_state)
       = Return [ {| type := "text";
                     text := show
                       (PDict [("error", PStr "HTTP Client Error");
                               ("message", PStr "Cannot connect to host");
                               ("url", PStr "http://localhost/status");
                               ("method", PStr mu)]) |} ].
Proof.
  apply (failed_request_is_reported
           (sample_runtime unreachable_peer) get_example initial_state
           (Request 0 "GET" (PStr "http://localhost/status") (PDict []) false None)
           (Exn ClientError "Cannot connect to host"));
    [reflexivity | left; reflexivity].
Defined.

Lemma scalar_headers_stop_the_request_witness :
  issued (handle_api_call (sample_runtime (echo_peer 200)) post_null_headers_example)
    initial_state = []
  /\ exists e : exn,
       exn_cls e = TypeError
       /\ fst (handle_api_call (sample_runtime (echo_peer 200))
                 post_null_headers_example initial_state)
          = Return [ {| type := "text";
                        text := show
                          (PDict [("error", PStr "Unexpected Error");
                                  ("message", PStr (exn_str e));
                                  ("url", PStr "http://localhost/echo");
                                  ("method", PStr "POST")]) |} ].
Proof.
  apply (scalar_headers_stop_the_request
           (sample_runtime (echo_peer 200)) post_null_headers_example initial_state
           "POST" (PStr "{}") PNone); reflexivity.
Defined.

Lemma body_ignored_for_other_methods_witness :
  exists req : request,
    issued (handle_api_call (sample_runtime (echo_peer 200)) get_with_body_example)
      initial_state = [req]
    /\ req_method req = "GET"
    /\ req_data req = None
    /\ req_headers req = PDict [].
Proof.
  apply (body_ignored_for_other_methods
           (sample_runtime (echo_peer 200)) get_with_body_example initial_state "GET");
    [reflexivity | discriminate | discriminate | discriminate].
Defined.

Lemma caller_headers_preserved_witness :
  exists (req : request) (h' : dict),
    issued (handle_api_call (sample_runtime (echo_peer 200)) post_with_headers_example)
      initial_state = [req]
    /\ req_headers req = PDict h'
    /\ (forall k v,
           dict_lookup [("content-type", PStr "text/plain"); ("X-Trace", PStr "1")] k
           = Some v -> dict_lookup h' k = Some v)
    /\ (forall k, k <> "Content-Type" ->
           dict_lookup h' k
           = dict_lookup [("content-type", PStr "text/plain"); ("X-Trace", PStr "1")] k)
    /\ dict_lookup h' "Content-Type" = Some (PStr "application/json").
Proof.
  apply (caller_headers_preserved
           (sample_runtime (echo_peer 200)) post_with_headers_example initial_state
           "PUT" (PStr "hello")
           [("content-type", PStr "text/plain"); ("X-Trace", PStr "1")]);
    reflexivity.
Defined.

Lemma next_call_reuses_session_witness :
  sessions
    (snd (handle_call_tool (sample_runtime unreachable_peer) "fetch_api_data" post_example
            (snd (handle_api_call (sample_runtime (echo_peer 200)) get_example
                    initial_state))))
  = [false]
  /\ http_session
       (snd (handle_call_tool (sample_runtime unreachable_peer) "fetch_api_data"
               post_example
               (snd (handle_api_call (sample_runtime (echo_peer 200)) get_example
                       initial_state))))
     = Some 0.
Proof.
  destruct (next_call_reuses_session
              (sample_runtime (echo_peer 200)) get_example "GET"
              (sample_runtime unreachable_peer) "fetch_api_data" post_example
              initial_state) as (Hsessions & Hcur & _); [reflexivity|].
  split; [exact Hsessions | exact Hcur].
Defined.

Lemma main_finally_closes_current_only_witness :
  main_finally (main_finally (server_run lifecycle_example initial_state))
  = main_finally (server_run lifecycle_example initial_state)
  /\ sessions (main_finally (server_run lifecycle_example initial_state)) !! 0
     = sessions (server_run lifecycle_example initial_state) !! 0
  /\ session_of (main_finally (server_run lifecycle_example initial_state)) = 2.
Proof.
  destruct (main_finally_closes_current_only (server_run lifecycle_example initial_state))
    as (Hidem & _ & _ & _ & Hother & Hfresh).
  split; [exact Hidem | split; [apply Hother; discriminate | exact Hfresh]].
Defined.

Lemma run_only_grows_witness :
  sessions (server_run (take 2 lifecycle_example) initial_state) !! 0 = Some true
  /\ sessions (server_run (drop 2 lifecycle_example)
                 (server_run (take 2 lifecycle_example) initial_state)) !! 0
     = Some true.
Proof.
  split; [reflexivity|].
  apply (run_only_grows (drop 2 lifecycle_example)
           (server_run (take 2 lifecycle_example) initial_state)).
  reflexivity.
Defined.
